(** * Campus learning dashboard: mentor-request lifecycle, notification
      banner and scheduled attendance reporters.

    A shallow embedding of
    - the mentor-request record builders and student updates quoted from
      [src/services/dataServices.ts] (MentorshipService),
    - the auto-clear effects of [MentorCampusTab.tsx],
    - [scripts/daily-goal-report.js] and [scripts/daily-reflection-report.js],
    together with the properties the specification states about them. *)

From Stdlib Require Import ZArith Lia Ascii String.
From stdpp Require Import gmap strings list sorting.

Local Open Scope Z_scope.
Set Warnings "-clear-no-such-hyp".

(** ** JavaScript strings and values *)

(** A JavaScript string is a sequence of UTF-16 code units; [length],
    [substring] and the default sort order all work on code units. *)
Abbreviation jsstring := (list N).

(** An ASCII literal of the source as a JavaScript string. *)
Definition str (s : string) : jsstring :=
  N_of_ascii <$> list_ascii_of_string s.

(** The values that reach a Firestore document in the modelled code. *)
Inductive jsval : Type :=
  | JUndefined
  | JNull
  | JStr (s : jsstring)
  | JDate (ms : Z).

#[global] Instance jsval_eq_dec : EqDecision jsval.
Proof. solve_decision. Defined.

(** [ToBoolean]: what [if (v)] tests. *)
Definition truthy (v : jsval) : bool :=
  match v with
  | JUndefined | JNull => false
  | JStr s => negb (bool_decide (s = []))
  | JDate _ => true
  end.

(** A plain object / Firestore document: field name to value. *)
Abbreviation doc := (gmap string jsval).

(** Property read [o.k]: a missing key reads as [undefined]. *)
Definition prop (o : doc) (k : string) : jsval := default JUndefined (o !! k).

(** Optional chaining [o?.k] on an object that may be null/undefined. *)
Definition opt_prop (o : option doc) (k : string) : jsval :=
  match o with
  | Some d => prop d k
  | None => JUndefined
  end.

(** ** Mentor request lifecycle (MentorshipService) *)

Module MentorshipService.

(** The record built by [requestMentorChange] before [addDoc]:
<<
  const requestData: any = { student_id: studentId, student_name: student.name,
    student_email: student.email, requested_mentor_id: requestedMentorId,
    requested_mentor_name: requestedMentor.name, status: 'pending',
    created_at: new Date() };
  if (currentMentorId) requestData.current_mentor_id = currentMentorId;
  if (currentMentor?.name) requestData.current_mentor_name = currentMentor.name;
  if (reason) requestData.reason = reason;
>>
    [student], [requestedMentor] and [currentMentor] are the user documents
    fetched before the record is built; the optional arguments are arbitrary
    values, [JUndefined] when the caller leaves them out. *)
Definition requestData
    (studentId requestedMentorId : jsstring)
    (currentMentorId reason : jsval)
    (student requestedMentor : doc) (currentMentor : option doc)
    (now : Z) : doc :=
  let d0 : doc :=
    <["student_id" := JStr studentId]>
    (<["student_name" := prop student "name"]>
    (<["student_email" := prop student "email"]>
    (<["requested_mentor_id" := JStr requestedMentorId]>
    (<["requested_mentor_name" := prop requestedMentor "name"]>
    (<["status" := JStr (str "pending")]>
    (<["created_at" := JDate now]> ∅)))))) in
  let d1 :=
    if truthy currentMentorId
    then <["current_mentor_id" := currentMentorId]> d0 else d0 in
  let d2 :=
    if truthy (opt_prop currentMentor "name")
    then <["current_mentor_name" := opt_prop currentMentor "name"]> d1 else d1 in
  if truthy reason then <["reason" := reason]> d2 else d2.

(** The update built by [approveMentorRequest]:
<<
  const updateData: any = { status: 'approved', reviewed_at: new Date(),
                            reviewed_by: adminId };
  if (adminNotes) updateData.admin_notes = adminNotes;
>> *)
Definition approveUpdateData (adminId : jsstring) (adminNotes : jsval)
    (now : Z) : doc :=
  let d0 : doc :=
    <["status" := JStr (str "approved")]>
    (<["reviewed_at" := JDate now]>
    (<["reviewed_by" := JStr adminId]> ∅)) in
  if truthy adminNotes then <["admin_notes" := adminNotes]> d0 else d0.

(** Modelled from the spec: the body of [rejectMentorRequest] is not among
    the sources; the specification gives it the review metadata of approve
    with [status = rejected] and the same omit-when-empty rule for notes. *)
Definition rejectUpdateData (adminId : jsstring) (adminNotes : jsval)
    (now : Z) : doc :=
  let d0 : doc :=
    <["status" := JStr (str "rejected")]>
    (<["reviewed_at" := JDate now]>
    (<["reviewed_by" := JStr adminId]> ∅)) in
  if truthy adminNotes then <["admin_notes" := adminNotes]> d0 else d0.

(** The student update issued on approval:
<<
  await UserService.updateUser(request.student_id, {
    mentor_id: request.requested_mentor_id, pending_mentor_id: '' });
>> *)
Definition approveStudentUpdate (request : doc) : doc :=
  <["mentor_id" := prop request "requested_mentor_id"]>
  (<["pending_mentor_id" := JStr []]> ∅).

(** The student update issued on rejection:
<<
  await UserService.updateUser(request.student_id, { pending_mentor_id: '' });
>> *)
Definition rejectStudentUpdate (request : doc) : doc :=
  <["pending_mentor_id" := JStr []]> ∅.

(** *** The request lifecycle over the document store *)

Inductive Error : Type :=
  | ValidationError
  | InvalidStateError
  | StoreError.

(** One write that reached the store. *)
Inductive Write : Type :=
  | WriteRequest (id : jsstring) (data : doc)
  | WriteUser (id : jsstring) (data : doc).

(** The two collections the lifecycle touches, and the writes accepted so
    far (most recent first). *)
Record Store : Type := mkStore {
  mentor_requests : gmap jsstring doc;
  users : gmap jsstring doc;
  writes : list Write
}.

(** Store operations thread the store and may fail; a failure keeps the
    store as it was when the failing step started, so a failure after a
    first accepted write leaves that write in place. *)
Definition M (A : Type) : Type := Store → Store * (Error + A).

Definition ret {A} (a : A) : M A := λ s, (s, inr a).
Definition fail {A} (e : Error) : M A := λ s, (s, inl e).
Definition bind {A B} (m : M A) (k : A → M B) : M B :=
  λ s, match m s with
       | (s', inr a) => k a s'
       | (s', inl e) => (s', inl e)
       end.

Notation "x <- m ;; k" := (bind m (λ x, k))
  (at level 100, m at next level, right associativity, only parsing).
Notation "m ;;; k" := (bind m (λ _, k))
  (at level 100, right associativity, only parsing).

(** The store refuses a write that carries an absence marker. *)
Definition has_absence_marker (d : doc) : bool :=
  bool_decide (map_Exists (λ _ v, v = JUndefined) d).

(** Modelled from the spec: the persistence layer ([updateDoc]) is an
    external collaborator. An update fails as a whole when the payload holds
    an absence marker or the document does not exist; otherwise the payload's
    fields overwrite the stored ones and every other field is kept. *)
Definition updateRequest (id : jsstring) (data : doc) : M unit :=
  λ s, if has_absence_marker data then (s, inl StoreError)
       else match mentor_requests s !! id with
            | None => (s, inl StoreError)
            | Some old =>
                (mkStore (<[id := data ∪ old]> (mentor_requests s)) (users s)
                         (WriteRequest id data :: writes s), inr ())
            end.

(** Modelled from the spec: [UserService.updateUser] is not among the
    sources; it is the same field-wise update on the [users] collection. The
    identifier is read from a request document, so it is a value; only a
    string names a document. *)
Definition updateUser (id : jsval) (data : doc) : M unit :=
  λ s, match id with
       | JStr uid =>
           if has_absence_marker data then (s, inl StoreError)
           else match users s !! uid with
                | None => (s, inl StoreError)
                | Some old =>
                    (mkStore (mentor_requests s) (<[uid := data ∪ old]> (users s))
                             (WriteUser uid data :: writes s), inr ())
                end
       | _ => (s, inl StoreError)
       end.

(** Modelled from the spec: reading the request; "request exists and
    status == pending; otherwise fails with InvalidStateError". *)
Definition getPendingRequest (requestId : jsstring) : M doc :=
  λ s, match mentor_requests s !! requestId with
       | Some request =>
           if decide (prop request "status" = JStr (str "pending"))
           then (s, inr request) else (s, inl InvalidStateError)
       | None => (s, inl InvalidStateError)
       end.

(** Modelled from the spec: the control flow of [approveMentorRequest]
    (precondition, request write, then student write) is not among the
    sources; the two payloads are the quoted ones above. *)
Definition approveMentorRequest (requestId adminId : jsstring)
    (adminNotes : jsval) (now : Z) : M unit :=
  request <- getPendingRequest requestId ;;
  updateRequest requestId (approveUpdateData adminId adminNotes now) ;;;
  updateUser (prop request "student_id") (approveStudentUpdate request).

(** Modelled from the spec: [rejectMentorRequest], same preconditions as
    approve; the student payload is the quoted one above. *)
Definition rejectMentorRequest (requestId adminId : jsstring)
    (adminNotes : jsval) (now : Z) : M unit :=
  request <- getPendingRequest requestId ;;
  updateRequest requestId (rejectUpdateData adminId adminNotes now) ;;;
  updateUser (prop request "student_id") (rejectStudentUpdate request).

End MentorshipService.

(** ** Notification banner of the campus overview ([MentorCampusTab.tsx]) *)

Module MentorCampusTab.

(** The component's state, the timeouts its two effects have pending (each
    by the instant it is due) and the current instant, in milliseconds.
<<
  const [successMessage, setSuccessMessage] = useState<string>('');
  const [errorMessage, setErrorMessage] = useState<string>('');
  const [processing, setProcessing] = useState<string | null>(null);
>> *)
Record State : Type := mkState {
  successMessage : jsstring;
  errorMessage : jsstring;
  processing : option jsstring;
  successTimer : option Z;
  errorTimer : option Z;
  clock : Z
}.

Definition initial (t : Z) : State := mkState [] [] None None None t.

(** <<
  useEffect(() => {
    if (successMessage) {
      const timer = setTimeout(() => setSuccessMessage(''), 3000);
      return () => clearTimeout(timer);
    }
  }, [successMessage]);
>>
    A setter called with the value the state already holds changes nothing
    and runs no effect. Otherwise the component renders again, the cleanup
    of the effect's previous run clears its timeout, and the effect runs
    anew: it starts a timeout when the message is not empty. *)
Definition setSuccessMessage (v : jsstring) (s : State) : State :=
  if decide (v = successMessage s) then s
  else mkState v (errorMessage s) (processing s)
         (if decide (v = []) then None else Some (clock s + 3000))
         (errorTimer s) (clock s).

(** <<
  useEffect(() => {
    if (errorMessage) {
      const timer = setTimeout(() => setErrorMessage(''), 5000);
      return () => clearTimeout(timer);
    }
  }, [errorMessage]);
>> *)
Definition setErrorMessage (v : jsstring) (s : State) : State :=
  if decide (v = errorMessage s) then s
  else mkState (successMessage s) v (processing s)
         (successTimer s)
         (if decide (v = []) then None else Some (clock s + 5000))
         (clock s).

Definition setProcessing (p : option jsstring) (s : State) : State :=
  mkState (successMessage s) (errorMessage s) p
    (successTimer s) (errorTimer s) (clock s).

(** A timeout that is due runs its callback, [setSuccessMessage('')] or
    [setErrorMessage('')], and is pending no more. *)
Definition fireSuccess (s : State) : State :=
  setSuccessMessage []
    (mkState (successMessage s) (errorMessage s) (processing s)
       None (errorTimer s) (clock s)).

Definition fireError (s : State) : State :=
  setErrorMessage []
    (mkState (successMessage s) (errorMessage s) (processing s)
       (successTimer s) None (clock s)).

Definition due (timer : option Z) (t : Z) : bool :=
  match timer with
  | Some d => d <=? t
  | None => false
  end.

(** Time passes: [dt] milliseconds later every timeout that has become due
    has run. *)
Definition elapse (dt : N) (s : State) : State :=
  let t := clock s + Z.of_N dt in
  let s1 := if due (successTimer s) t then fireSuccess s else s in
  let s2 := if due (errorTimer s1) t then fireError s1 else s1 in
  mkState (successMessage s2) (errorMessage s2) (processing s2)
    (successTimer s2) (errorTimer s2) t.

(** The three moments of [handleGoalApproval] / [handleReflectionApproval]:
<<
  setProcessing(goalId); setErrorMessage(''); setSuccessMessage('');
  ...
  setSuccessMessage(`Goal ${...} successfully! ✅`);
  ...
  } catch (error) { setErrorMessage(error.message || 'Failed to approve goal. ...'); }
  finally { setProcessing(null); }
>> *)
Definition actionStart (target : jsstring) (s : State) : State :=
  setSuccessMessage [] (setErrorMessage [] (setProcessing (Some target) s)).

(** What can happen to the component, one thing at a time. *)
Inductive Event : Type :=
  | SetSuccess (message : jsstring)
  | SetError (message : jsstring)
  | SetProcessing (p : option jsstring)
  | Elapse (dt : N).

Definition step (s : State) (e : Event) : State :=
  match e with
  | SetSuccess m => setSuccessMessage m s
  | SetError m => setErrorMessage m s
  | SetProcessing p => setProcessing p s
  | Elapse dt => elapse dt s
  end.

Definition run (s : State) (events : list Event) : State := foldl step s events.

(** Milliseconds that pass during a sequence of events. *)
Definition elapsed (events : list Event) : Z :=
  foldr (λ e acc, match e with Elapse dt => Z.of_N dt + acc | _ => acc end) 0 events.

Definition sets_success (e : Event) : bool :=
  match e with SetSuccess _ => true | _ => false end.

Definition sets_error (e : Event) : bool :=
  match e with SetError _ => true | _ => false end.

End MentorCampusTab.

(** ** Scheduled attendance reporters *)

(** What both scripts share word for word: the date helper, the webhook
    post and the shapes of the messages. *)
Module Report.

(** *** Numbers and text *)

(** Decimal digits of a non-negative integer, most significant first;
    [fuel] bounds the number of digits. *)
Fixpoint decimal (fuel : nat) (n : Z) : jsstring :=
  match fuel with
  | O => []
  | S fuel =>
      (if n <? 10 then [] else decimal fuel (n / 10)) ++ [Z.to_N (48 + n mod 10)]
  end.

(** [String(n)] and [`${n}`] for an integer [n]; a number has no more
    decimal digits than binary ones. *)
Definition String_of_int (n : Z) : jsstring :=
  if n <? 0 then 45%N :: decimal (S (Z.to_nat (Z.log2 (- n)))) (- n)
  else decimal (S (Z.to_nat (Z.log2 n))) n.

(** [s.padStart(2, '0')]. *)
Definition padStart2 (s : jsstring) : jsstring :=
  replicate (2 - length s) 48%N ++ s.

(** [s.substring(0, n)]. *)
Definition substring0 (n : Z) (s : jsstring) : jsstring := take (Z.to_nat n) s.

(** [a.join(', ')]. *)
Fixpoint join (l : list jsstring) : jsstring :=
  match l with
  | [] => []
  | [s] => s
  | s :: rest => s ++ str ", " ++ join rest
  end.

(** *** Calendar *)

Definition msPerDay : Z := 86400000.

(** Proleptic Gregorian date (year, month 1-12, day 1-31) of a day number
    counted from 1970-01-01: what [getUTCFullYear], [getUTCMonth] and
    [getUTCDate] read off an instant. *)
Definition civil_from_days (z : Z) : Z * Z * Z :=
  let z := z + 719468 in
  let era := z / 146097 in
  let doe := z - era * 146097 in
  let yoe := (doe - doe / 1460 + doe / 36524 - doe / 146096) / 365 in
  let doy := doe - (365 * yoe + yoe / 4 - yoe / 100) in
  let mp := (5 * doy + 2) / 153 in
  let d := doy - (153 * mp + 2) / 5 + 1 in
  let m := if mp <? 10 then mp + 3 else mp - 9 in
  let y := yoe + era * 400 in
  (if m <=? 2 then y + 1 else y, m, d).

(** The inverse direction, [MakeDay] of the language standard. *)
Definition days_from_civil (y m d : Z) : Z :=
  let y := if m <=? 2 then y - 1 else y in
  let era := y / 400 in
  let yoe := y - era * 400 in
  let mp := if 2 <? m then m - 3 else m + 9 in
  let doy := (153 * mp + 2) / 5 + d - 1 in
  let doe := yoe * 365 + yoe / 4 - yoe / 100 + doy in
  era * 146097 + doe - 719468.

Definition getUTCFullYear (t : Z) : Z := (civil_from_days (t / msPerDay)).1.1.
Definition getUTCMonth (t : Z) : Z := (civil_from_days (t / msPerDay)).1.2 - 1.
Definition getUTCDate (t : Z) : Z := (civil_from_days (t / msPerDay)).2.

(** <<
  const istOffset = 5.5 * 60 * 60 * 1000;
  const istDate = new Date(now.getTime() + istOffset);
  return `${year}-${month}-${day}`;   // month, day padded to two digits
>> *)
Definition istOffset : Z := 19800000.

Definition getTodayDateIST (now : Z) : jsstring :=
  let istDate := now + istOffset in
  let year := getUTCFullYear istDate in
  let month := padStart2 (String_of_int (getUTCMonth istDate + 1)) in
  let day := padStart2 (String_of_int (getUTCDate istDate)) in
  String_of_int year ++ str "-" ++ month ++ str "-" ++ day.

(** Reading a run of decimal digits. *)
Definition digit (c : N) : option Z :=
  if ((48 <=? c) && (c <=? 57))%N then Some (Z.of_N c - 48) else None.

Definition digits (s : jsstring) : option Z :=
  foldl (λ acc c, a ← acc; d ← digit c; Some (10 * a + d)) (Some 0) s.

Definition char_at (s : jsstring) (i : nat) (c : N) : bool :=
  bool_decide (s !! i = Some c).

Definition slice (i n : nat) (s : jsstring) : jsstring := take n (drop i s).

(** The date part [YYYY-MM-DD] as a day number. *)
Definition parse_date (s : jsstring) : option Z :=
  if char_at s 4 45%N && char_at s 7 45%N then
    y ← digits (slice 0 4 s);
    m ← digits (slice 5 2 s);
    d ← digits (slice 8 2 s);
    if (1 <=? m) && (m <=? 12) && (1 <=? d) && (d <=? 31)
    then Some (days_from_civil y m d) else None
  else None.

(** The time part [HH:mm:ss] in milliseconds. *)
Definition parse_time (s : jsstring) : option Z :=
  if char_at s 2 58%N && char_at s 5 58%N then
    h ← digits (slice 0 2 s);
    mi ← digits (slice 3 2 s);
    sec ← digits (slice 6 2 s);
    if (h <=? 23) && (mi <=? 59) && (sec <=? 59)
    then Some ((h * 3600 + mi * 60 + sec) * 1000) else None
  else None.

(** [new Date(s).getTime()] for the two forms the scripts build: a date-only
    form is read as UTC midnight, a date-time form without offset is read as
    local time. [tz] is the offset of the process's time zone in minutes east
    of UTC; [None] is an invalid date. *)
Definition new_Date (tz : Z) (s : jsstring) : option Z :=
  if bool_decide (length s = 10%nat) then
    day ← parse_date s; Some (day * msPerDay)
  else if bool_decide (length s = 19%nat) && char_at s 10 84%N then
    day ← parse_date (slice 0 10 s);
    ms ← parse_time (slice 11 8 s);
    Some (day * msPerDay + ms - tz * 60000)
  else None.

(** *** Errors, webhook transport *)

Record JsError : Type := mkError { message : jsstring }.

(** How one webhook request ends: a response with a status code, or an
    error raised by the request. *)
Inductive Response : Type :=
  | StatusCode (statusCode : Z)
  | RequestError (error : JsError).

(** <<
  if (res.statusCode === 204 || res.statusCode === 200) resolve();
  else reject(new Error(`Discord API error: ${res.statusCode}`));
  ...
  req.on('error', (error) => reject(error));
>> *)
Definition sendDiscordNotification (r : Response) : JsError + unit :=
  match r with
  | StatusCode statusCode =>
      if (statusCode =? 204) || (statusCode =? 200) then inr ()
      else inl (mkError (str "Discord API error: " ++ String_of_int statusCode))
  | RequestError error => inl error
  end.

(** *** Messages *)

(** Literal titles and field names are kept as written in the source;
    text that is computed is a JavaScript string. *)
Record Field : Type := mkField {
  f_name : string;
  f_value : jsstring;
  f_inline : bool
}.

Record Embed : Type := mkEmbed {
  title : string;
  description : jsstring;
  color : Z;
  timestamp : Z;
  fields : list Field;
  footer : string
}.

(** The body [{ embeds: [...] }] of a post. *)
Abbreviation Payload := (list Embed).

(** Lines written with [console.error] by the top-level handler: the error
    that ended the report (with its stack), and the message of a failure
    post that was rejected. *)
Inductive LogLine : Type :=
  | LogReportError (error : JsError)
  | LogNotifyFailed (msg : jsstring).

(** What a run leaves behind: the exit status, the bodies handed to
    [sendDiscordNotification] in order, and the handler's error lines. *)
Record Run : Type := mkRun {
  exit_code : Z;
  posts : list Payload;
  stderr : list LogLine
}.

(** A submission document: [student_id] when the field is present, and the
    [created_at] instant in milliseconds. *)
Record Submission : Type := mkSubmission {
  student_id : option jsstring;
  created_at : Z
}.

(** <<
  .where('created_at', '>=', Timestamp.fromDate(new Date(todayDate)))
  .where('created_at', '<',  Timestamp.fromDate(new Date(todayDate + 'T23:59:59')))
>>
    The two bounds of the query, when both dates are valid. *)
Definition todayRange (tz : Z) (todayDate : jsstring) : option (Z * Z) :=
  todayStart ← new_Date tz todayDate;
  todayEnd ← new_Date tz (todayDate ++ str "T23:59:59");
  Some (todayStart, todayEnd).

Definition in_range (range : Z * Z) (t : Z) : bool :=
  (range.1 <=? t) && (t <? range.2).

(** [Timestamp.fromDate] refuses an invalid date. *)
Definition invalid_date_error : JsError :=
  mkError (str "Value for argument seconds is not a valid integer.").

(** <<
  const ids = new Set();
  snapshot.forEach(doc => { if (data.student_id) ids.add(data.student_id); });
>>
    over the documents the range query returns. *)
Definition submittedToday (tz : Z) (collection : JsError + list Submission)
    (todayDate : jsstring) : JsError + gset jsstring :=
  match todayRange tz todayDate with
  | None => inl invalid_date_error
  | Some range =>
      match collection with
      | inl error => inl error
      | inr all =>
          let snapshot := filter (λ d, in_range range (created_at d) = true) all in
          inr (foldl (λ ids d,
                        match student_id d with
                        | Some sid =>
                            if bool_decide (sid = []) then ids else {[ sid ]} ∪ ids
                        | None => ids
                        end) ∅ snapshot)
      end
  end.

(** The failure message posted by the top-level handler; the two scripts
    differ in the title and the description only. *)
Definition errorPayload (ttl : string) (descr : string) (error : JsError)
    (time : Z) : Payload :=
  [ mkEmbed ttl (str descr) 16711680 time
      [ mkField "Error" (substring0 1000 (message error)) false ]
      "Campus Learning Dashboard - Error Report" ].

(** <<
  } catch (error) {
    console.error(..., error);
    try { await sendDiscordNotification({ embeds: [ ... ] }); }
    catch (notifError) { console.error('Failed to send error notification:', notifError.message); }
    process.exit(1);
  }
>>
    [sent] are the posts made before the failure, [r] is how the post of
    the failure message ends. *)
Definition handleFailure (ttl descr : string) (time : Z) (sent : list Payload)
    (r : Response) (error : JsError) : Run :=
  let payload := errorPayload ttl descr error time in
  match sendDiscordNotification r with
  | inr _ => mkRun 1 (sent ++ [payload]) [LogReportError error]
  | inl notifError =>
      mkRun 1 (sent ++ [payload])
            [LogReportError error; LogNotifyFailed (message notifError)]
  end.

(** A document of the [users] collection: its identifier and the fields the
    scripts read, each a string when present. *)
Record UserDoc : Type := mkUserDoc {
  doc_id : jsstring;
  data_name : option jsstring;
  data_email : option jsstring;
  data_campus : option jsstring;
  data_house : option jsstring
}.

(** What one run meets outside the script. *)
Record World : Type := mkWorld {
  (** [new Date()] when the run starts *)
  now : Z;
  (** offset of the process's local time zone, minutes east of UTC *)
  tz : Z;
  (** result of the [users] query *)
  users_snapshot : JsError + list UserDoc;
  (** content of the submissions collection, or the failure of its query *)
  submissions_snapshot : JsError + list Submission;
  (** how the k-th webhook request of the run ends *)
  webhook : nat → Response;
  (** [new Date()] when the report and the failure message are built *)
  report_time : Z;
  error_time : Z
}.

End Report.

(** *** The goal reporter, [scripts/daily-goal-report.js] *)

Module GoalReport.
Import Report.

Record Student : Type := mkStudent {
  id : jsstring;
  name : jsstring;
  email : jsstring;
  campus : jsstring;
  house : jsstring
}.

(** [v || fallback] on a field that holds a string when present. *)
Definition or_else (v : option jsstring) (fallback : jsstring) : jsstring :=
  match v with
  | Some s => if bool_decide (s = []) then fallback else s
  | None => fallback
  end.

(** <<
  students.push({ id: doc.id, name: data.name || 'Unknown', email: data.email || '',
                  campus: data.campus || '', house: data.house || '' });
>> *)
Definition getAllStudents (snapshot : list UserDoc) : list Student :=
  (λ d, mkStudent (doc_id d) (or_else (data_name d) (str "Unknown"))
          (or_else (data_email d) []) (or_else (data_campus d) [])
          (or_else (data_house d) [])) <$> snapshot.

Definition getStudentsWithGoalsToday := submittedToday.

(** <<
  allStudents.forEach(student => {
    if (studentIdsWithGoals.has(student.id)) presentStudents.push(student);
    else absentStudents.push(student);
  });
>> *)
Definition separate (studentIdsWithGoals : gset jsstring)
    (allStudents : list Student) : list Student * list Student :=
  foldl (λ acc student,
           if bool_decide (id student ∈ studentIdsWithGoals)
           then (acc.1 ++ [student], acc.2)
           else (acc.1, acc.2 ++ [student]))
        ([], []) allStudents.

(** [Array.prototype.sort()] without a comparator orders strings by their
    code units. *)
Fixpoint jsstring_leb (a b : jsstring) : bool :=
  match a, b with
  | [], _ => true
  | _ :: _, [] => false
  | x :: a', y :: b' =>
      if (x <? y)%N then true
      else if (y <? x)%N then false
      else jsstring_leb a' b'
  end.

Definition jsstring_le (a b : jsstring) : Prop := jsstring_leb a b = true.

#[global] Instance jsstring_le_dec a b : Decision (jsstring_le a b).
Proof. unfold jsstring_le. apply _. Defined.

Definition sort (l : list jsstring) : list jsstring := merge_sort jsstring_le l.

(** [absentStudents.map(s => s.name).sort()], before it is joined. *)
Definition absentNameList (absentStudents : list Student) : list jsstring :=
  sort (name <$> absentStudents).

(** [absentStudents.map(s => s.name).sort().join(', ')]. *)
Definition absentNames (absentStudents : list Student) : jsstring :=
  join (absentNameList absentStudents).

(** <<
  value: absentNames.length > 1000 ? absentNames.substring(0, 997) + '...' : absentNames
>> *)
Definition absentFieldValue (absentNames : jsstring) : jsstring :=
  if 1000 <? Z.of_nat (length absentNames)
  then substring0 997 absentNames ++ str "..."
  else absentNames.

Section Reporter.

(** The text of [((presentCount / totalCount) * 100).toFixed(1)]: a
    double-precision computation, left open here. *)
Variable toFixed1 : Z → Z → jsstring.

(** The report message built by [main]. *)
Definition report (todayDate : jsstring) (time : Z)
    (presentStudents absentStudents allStudents : list Student) : Embed :=
  let presentCount := Z.of_nat (length presentStudents) in
  let absentCount := Z.of_nat (length absentStudents) in
  let totalCount := Z.of_nat (length allStudents) in
  let attendancePercentage := toFixed1 presentCount totalCount in
  mkEmbed "🌅 Morning Attendance"
    (str "Attendance report for **" ++ todayDate ++ str "**")
    (if absentCount <? presentCount then 65280 else 16776960)
    time
    ([ mkField "✅ Present"
         (str "**" ++ String_of_int presentCount ++ str "** students") true;
       mkField "❌ Absent"
         (str "**" ++ String_of_int absentCount ++ str "** students") true;
       mkField "📈 Attendance Rate"
         (str "**" ++ attendancePercentage ++ str "%**") true ] ++
     [ if 0 <? absentCount
       then mkField "👥 Absent Students"
              (absentFieldValue (absentNames absentStudents)) false
       else mkField "🎉 Perfect Attendance!"
              (str "All students have submitted their goals today!") false ])
    "Campus Learning Dashboard - Daily Report".

Definition onFailure (w : World) : list Payload → Response → JsError → Run :=
  handleFailure "❌ Daily Report Failed"
    "An error occurred while generating the daily goal attendance report."
    (error_time w).

(** [main]: fetch the students, stop with status 0 when there are none,
    fetch today's goals, split the students, post the report; any failure
    goes to the handler. *)
Definition main (w : World) : Run :=
  let todayDate := getTodayDateIST (now w) in
  match users_snapshot w with
  | inl error => onFailure w [] (webhook w 0) error
  | inr snapshot =>
      let allStudents := getAllStudents snapshot in
      if bool_decide (length allStudents = 0%nat) then mkRun 0 [] []
      else
        match getStudentsWithGoalsToday (tz w) (submissions_snapshot w) todayDate with
        | inl error => onFailure w [] (webhook w 0) error
        | inr studentIdsWithGoals =>
            let '(presentStudents, absentStudents) :=
              separate studentIdsWithGoals allStudents in
            let payload :=
              [ report todayDate (report_time w)
                  presentStudents absentStudents allStudents ] in
            match sendDiscordNotification (webhook w 0) with
            | inr _ => mkRun 0 [payload] []
            | inl error => onFailure w [payload] (webhook w 1) error
            end
        end
  end.

End Reporter.
End GoalReport.

(** *** The reflection reporter, [scripts/daily-reflection-report.js] *)

Module ReflectionReport.
Import Report.

Record Student : Type := mkStudent {
  id : jsstring;
  name : jsstring
}.

(** <<
  students.push({ id: doc.id, name: doc.data().name || 'Unknown' });
>> *)
Definition getAllStudents (snapshot : list UserDoc) : list Student :=
  (λ d, mkStudent (doc_id d)
          (GoalReport.or_else (data_name d) (str "Unknown"))) <$> snapshot.

Definition getStudentsWithReflectionsToday := submittedToday.

Section Reporter.

(** The text of [((presentCount / totalCount) * 100).toFixed(1)], and the
    comparison [text >= n] of that text with a number: double-precision
    computations, left open here. *)
Variable toFixed1 : Z → Z → jsstring.
Variable text_ge : jsstring → Z → bool.

(** The report message built by [main]: counts and a remark, no names. *)
Definition report (todayDate : jsstring) (time : Z)
    (presentCount totalCount : Z) : Embed :=
  let absentCount := totalCount - presentCount in
  let attendancePercentage := toFixed1 presentCount totalCount in
  mkEmbed "🌙 Evening Attendance"
    (str "Attendance report for **" ++ todayDate ++ str "**")
    (if absentCount <? presentCount then 5763719 else 15844367)
    time
    ([ mkField "✅ Present"
         (str "**" ++ String_of_int presentCount ++ str "** students") true;
       mkField "❌ Absent"
         (str "**" ++ String_of_int absentCount ++ str "** students") true;
       mkField "📈 Completion Rate"
         (str "**" ++ attendancePercentage ++ str "%**") true ] ++
     [ if presentCount =? totalCount
       then mkField "🎉 Perfect Day!"
              (str "All students completed both goals AND reflections today!") false
       else if text_ge attendancePercentage 90
       then mkField "💪 Excellent Work!"
              (str "Outstanding completion rate today!") false
       else if text_ge attendancePercentage 75
       then mkField "👍 Good Progress" (str "Keep up the momentum!") false
       else if text_ge attendancePercentage 50
       then mkField "📝 Reminder"
              (str "Encourage students to complete their reflections before day end.")
              false
       else mkField "⚠️ Low Completion"
              (str "Many students haven't submitted reflections yet. Consider sending reminders.")
              false ])
    "Campus Learning Dashboard - Evening Report".

Definition onFailure (w : World) : list Payload → Response → JsError → Run :=
  handleFailure "❌ Evening Report Failed"
    "An error occurred while generating the reflection attendance report."
    (error_time w).

(** [main]: as in the goal reporter, but the present count is the size of
    the set of submitting identifiers and no student is looked up in it. *)
Definition main (w : World) : Run :=
  let todayDate := getTodayDateIST (now w) in
  match users_snapshot w with
  | inl error => onFailure w [] (webhook w 0) error
  | inr snapshot =>
      let allStudents := getAllStudents snapshot in
      if bool_decide (length allStudents = 0%nat) then mkRun 0 [] []
      else
        match getStudentsWithReflectionsToday (tz w) (submissions_snapshot w) todayDate with
        | inl error => onFailure w [] (webhook w 0) error
        | inr studentIdsWithReflections =>
            let presentCount := Z.of_nat (size studentIdsWithReflections) in
            let totalCount := Z.of_nat (length allStudents) in
            let payload :=
              [ report todayDate (report_time w) presentCount totalCount ] in
            match sendDiscordNotification (webhook w 0) with
            | inr _ => mkRun 0 [payload] []
            | inl error => onFailure w [payload] (webhook w 1) error
            end
        end
  end.

End Reporter.
End ReflectionReport.

(** ** Start-up of the two scripts *)

Module Script.
Import Report.

(** The two variables the scripts read from the process environment. *)
Record Env : Type := mkEnv {
  FIREBASE_SERVICE_ACCOUNT : option jsstring;
  DISCORD_WEBHOOK_URL : option jsstring
}.

(** [process.env.X] is truthy: the variable is set and not empty. *)
Definition is_set (v : option jsstring) : bool :=
  match v with
  | Some (_ :: _) => true
  | _ => false
  end.

Section Start.

(** Whether [JSON.parse] accepts a text. *)
Variable JSON_parses : jsstring → bool.

(** Whether the client library takes the service account that a text
    parses to: [admin.credential.cert], [admin.initializeApp] and
    [admin.firestore] return. They throw otherwise (on [{}], which has no
    project id, for one), and the script calls them outside any [try]. *)
Variable initializes : jsstring → bool.

(** <<
  if (!process.env.FIREBASE_SERVICE_ACCOUNT) { console.error(...); process.exit(1); }
  if (!process.env.DISCORD_WEBHOOK_URL) { console.error(...); process.exit(1); }
  try { serviceAccount = JSON.parse(process.env.FIREBASE_SERVICE_ACCOUNT); }
  catch (error) { console.error(...); process.exit(1); }
  if (!admin.apps.length) {
    admin.initializeApp({ credential: admin.credential.cert(serviceAccount) });
  }
  const db = admin.firestore();
  ...
  main();
>>
    In a process that has just started [admin.apps] is empty, so the
    library is initialised. What it throws is caught nowhere: the process
    ends with status 1 before [main] is called. [main] is the script's
    own. *)
Definition start (main : World → Run) (env : Env) (w : World) : Run :=
  if negb (is_set (FIREBASE_SERVICE_ACCOUNT env)) then mkRun 1 [] []
  else if negb (is_set (DISCORD_WEBHOOK_URL env)) then mkRun 1 [] []
  else if negb (JSON_parses (default [] (FIREBASE_SERVICE_ACCOUNT env)))
  then mkRun 1 [] []
  else if negb (initializes (default [] (FIREBASE_SERVICE_ACCOUNT env)))
  then mkRun 1 [] []
  else main w.

End Start.
End Script.

(** ** The approval handlers of the campus overview *)

Module ApprovalHandlers.
Import MentorCampusTab.

Inductive ReviewStatus : Type := Approved | Reviewed.

(** <<
  `Goal ${status === 'approved' ? 'approved' : 'reviewed'} successfully! ✅`
>>
    The check mark is the single code unit U+2705. *)
Definition successText (noun : string) (status : ReviewStatus) : jsstring :=
  str noun ++ str " " ++
  str (match status with Approved => "approved" | Reviewed => "reviewed" end) ++
  str " successfully! " ++ [9989%N].

(** How one call of a handler goes, seen from the component alone: how long
    the review request and the refresh take, and whether each throws; what
    is thrown carries a message or none. *)
Record Outcome : Type := mkOutcome {
  review_ms : N;
  review_throws : option (option jsstring);
  refresh_ms : N;
  refresh_throws : option (option jsstring)
}.

(** The component while the review request is awaited. *)
Definition reviewing (target : jsstring) (o : Outcome) (s : State) : State :=
  elapse (review_ms o) (actionStart target s).

(** <<
  try {
    setProcessing(id); setErrorMessage(''); setSuccessMessage('');
    await Service.review(id, userData?.id || 'admin', status);
    setSuccessMessage(`... successfully! ✅`);
    if (selectedUser) { await selectUser(selectedUser); }
    fetchCampusData(true);
  } catch (error: any) {
    setErrorMessage(error.message || 'Failed to approve ... Please try again.');
  } finally {
    setProcessing(null);
  }
>>
    with nothing else touching the component meanwhile. *)
Definition handleApproval (noun : string) (fallback : jsstring)
    (target : jsstring) (status : ReviewStatus) (o : Outcome) (s : State) : State :=
  let s1 := reviewing target o s in
  let s2 :=
    match review_throws o with
    | Some msg => setErrorMessage (GoalReport.or_else msg fallback) s1
    | None =>
        let s3 := elapse (refresh_ms o)
                    (setSuccessMessage (successText noun status) s1) in
        match refresh_throws o with
        | Some msg => setErrorMessage (GoalReport.or_else msg fallback) s3
        | None => s3
        end
    end in
  setProcessing None s2.

Definition handleGoalApproval : jsstring → ReviewStatus → Outcome → State → State :=
  handleApproval "Goal" (str "Failed to approve goal. Please try again.").

Definition handleReflectionApproval : jsstring → ReviewStatus → Outcome → State → State :=
  handleApproval "Reflection" (str "Failed to approve reflection. Please try again.").

(** [disabled={processing === goal.id}] on the buttons of one item. *)
Definition disabled (target : jsstring) (s : State) : bool :=
  bool_decide (processing s = Some target).

(** *** Calls that overlap *)

(** Only the buttons of the item under review are disabled, so a handler
    can be called for another item while a call is awaited. One [await] of
    a call, seen from the component: what else happens to the component
    while the promise is pending (time passing and timeouts running, the
    updates of other calls), and whether the promise rejects, with a
    message or none. *)
Record Await : Type := mkAwait {
  meanwhile : list Event;
  throws : option (option jsstring)
}.

(** The handler, with its two awaits open to such events. Between two
    awaits its own updates run in one go: the three at the start; the
    success message after the review; the error message of the [catch] and
    the [setProcessing(null)] of the [finally]. *)
Definition handleApprovalAmid (noun : string) (fallback : jsstring)
    (target : jsstring) (status : ReviewStatus) (review refresh : Await)
    (s : State) : State :=
  let s1 := run (actionStart target s) (meanwhile review) in
  let s2 :=
    match throws review with
    | Some msg => setErrorMessage (GoalReport.or_else msg fallback) s1
    | None =>
        let s3 := run (setSuccessMessage (successText noun status) s1)
                    (meanwhile refresh) in
        match throws refresh with
        | Some msg => setErrorMessage (GoalReport.or_else msg fallback) s3
        | None => s3
        end
    end in
  setProcessing None s2.

Definition handleGoalApprovalAmid :
    jsstring → ReviewStatus → Await → Await → State → State :=
  handleApprovalAmid "Goal" (str "Failed to approve goal. Please try again.").

Definition handleReflectionApprovalAmid :
    jsstring → ReviewStatus → Await → Await → State → State :=
  handleApprovalAmid "Reflection"
    (str "Failed to approve reflection. Please try again.").

(** The three updates a call starts with, as they happen to another call
    that is awaited. *)
Definition startEvents (target : jsstring) : list Event :=
  [ SetProcessing (Some target); SetError []; SetSuccess [] ].

(** An await during which time passes and nothing else happens. *)
Definition alone (ms : N) (thrown : option (option jsstring)) : Await :=
  mkAwait [ Elapse ms ] thrown.

End ApprovalHandlers.

(** * Vocabulary of the properties, and sample data *)

(** ** Vocabulary for the mentor-request lifecycle *)

Module MentorshipSpec.
Import MentorshipService.

(** What the omit-rather-than-null contract says of one optional field:
    the key is present exactly when the supplied value is truthy, and a
    present key holds that value, which is neither [undefined] nor [null]. *)
Definition omitted_unless_truthy (d : doc) (k : string) (supplied : jsval) : Prop :=
  (is_Some (d !! k) ↔ truthy supplied = true) ∧
  (∀ v, d !! k = Some v → v = supplied ∧ v ≠ JUndefined ∧ v ≠ JNull).

(** The status of a request document. *)
Definition pending (request : doc) : Prop :=
  prop request "status" = JStr (str "pending").

Definition terminal (request : doc) : Prop :=
  prop request "status" = JStr (str "approved") ∨
  prop request "status" = JStr (str "rejected").

(** A sample store: one pending request of student [s1] for mentor [m2]. *)
Definition sample_request (status : string) : doc :=
  <["student_id" := JStr (str "s1")]>
  (<["requested_mentor_id" := JStr (str "m2")]>
  (<["status" := JStr (str status)]> ∅)).

Definition sample_store (status : string) : Store :=
  mkStore {[ str "r1" := sample_request status ]}
          {[ str "s1" := <["mentor_id" := JStr (str "m1")]>
                         (<["pending_mentor_id" := JStr (str "m2")]> ∅) ]}
          [].

End MentorshipSpec.

(** ** Vocabulary for dates *)

Module CalendarSpec.
Import Report.

(** The character of the last decimal digit of [d]. *)
Definition digit_char (d : Z) : N := Z.to_N (48 + d mod 10).

(** The text of a number of at most four, respectively two, digits, with
    leading zeros. *)
Definition four_digits (n : Z) : jsstring :=
  [digit_char (n / 10 / 10 / 10); digit_char (n / 10 / 10);
   digit_char (n / 10); digit_char n].

Definition two_digits (n : Z) : jsstring := [digit_char (n / 10); digit_char n].

(** The day number, counted from 1970-01-01, of the calendar day that an
    instant falls on in India. *)
Definition today (now : Z) : Z := (now + istOffset) / msPerDay.

End CalendarSpec.

(** ** Vocabulary for the goal reporter *)

Module GoalSpec.
Import Report GoalReport.

(** The run reached the point where the report is built: both queries
    answered and there is at least one student. *)
Definition reportBuilt (w : World) (allStudents : list Student)
    (studentIdsWithGoals : gset jsstring) : Prop :=
  ∃ snapshot,
    users_snapshot w = inr snapshot ∧
    allStudents = getAllStudents snapshot ∧
    allStudents ≠ [] ∧
    getStudentsWithGoalsToday (tz w) (submissions_snapshot w)
      (getTodayDateIST (now w)) = inr studentIdsWithGoals.

(** Three students, of whom only [s2] submitted a goal on 2025-11-11. *)
Definition sample_students : list Student :=
  [ mkStudent (str "s1") (str "Zoya") [] [] [];
    mkStudent (str "s2") (str "Amit") [] [] [];
    mkStudent (str "s3") (str "Ravi") [] [] [] ].

Definition sample_goals : list Submission :=
  [ mkSubmission (Some (str "s2")) 1762830000000 ].

(** The name of the field that lists names. *)
Definition absentStudentsField : string := "👥 Absent Students".

End GoalSpec.

(** ** Vocabulary for the reflection reporter *)

Module ReflectionSpec.
Import Report ReflectionReport.

(** The same run in a world where every user carries another name. *)
Definition with_names (rename : UserDoc → option jsstring) (w : World) : World :=
  mkWorld (now w) (tz w)
    (match users_snapshot w with
     | inl error => inl error
     | inr snapshot =>
         inr ((λ d, mkUserDoc (doc_id d) (rename d) (data_email d)
                      (data_campus d) (data_house d)) <$> snapshot)
     end)
    (submissions_snapshot w) (webhook w) (report_time w) (error_time w).

(** Every field name the reflection script can post. *)
Definition reportFieldNames : list string :=
  [ "✅ Present"; "❌ Absent"; "📈 Completion Rate"; "🎉 Perfect Day!";
    "💪 Excellent Work!"; "👍 Good Progress"; "📝 Reminder";
    "⚠️ Low Completion"; "Error" ].

End ReflectionSpec.

(** ** Vocabulary for whole runs *)

Module RunSpec.
Import Report.

(** The step of a run that fails first, and the error it raises: the users
    query, the submissions query (or its date bounds), or the post of the
    report. Both scripts go through the same steps. *)
Inductive stepFails (w : World) : JsError → Prop :=
  | fetch_students_fails error :
      users_snapshot w = inl error →
      stepFails w error
  | fetch_submissions_fails snapshot error :
      users_snapshot w = inr snapshot → snapshot ≠ [] →
      submittedToday (tz w) (submissions_snapshot w) (getTodayDateIST (now w))
        = inl error →
      stepFails w error
  | post_webhook_fails snapshot ids error :
      users_snapshot w = inr snapshot → snapshot ≠ [] →
      submittedToday (tz w) (submissions_snapshot w) (getTodayDateIST (now w))
        = inr ids →
      sendDiscordNotification (webhook w 0) = inl error →
      stepFails w error.

(** What the handler leaves behind after [error], given the posts [sent]
    before it: status 1, one more post, the failure message, and a second
    error line exactly when that post is rejected. *)
Definition failureHandled (ttl descr : string) (w : World) (error : JsError)
    (run : Run) : Prop :=
  exit_code run = 1 ∧
  ∃ sent,
    posts run = sent ++ [errorPayload ttl descr error (error_time w)] ∧
    Forall (λ payload, ∀ embed, embed ∈ payload → title embed ≠ ttl) sent ∧
    stderr run =
      LogReportError error ::
      match sendDiscordNotification (webhook w (length sent)) with
      | inl notifError => [LogNotifyFailed (message notifError)]
      | inr _ => []
      end.

(** A rendering of the percentage by exact arithmetic, rounded half up to
    one decimal; it stands in for the double-precision text in the sample
    runs below. *)
Definition sample_toFixed1 (presentCount totalCount : Z) : jsstring :=
  if totalCount =? 0 then str "NaN"
  else let tenths := (2000 * presentCount + totalCount) / (2 * totalCount) in
       String_of_int (tenths / 10) ++ str "." ++ String_of_int (tenths mod 10).

(** [text >= n] for a text with one decimal, by its tenths. *)
Definition sample_text_ge (text : jsstring) (n : Z) : bool :=
  match digits (filter (λ c, c ≠ 46%N) text) with
  | Some tenths => 10 * n <=? tenths
  | None => false
  end.

Definition sample_users : list UserDoc :=
  [ mkUserDoc (str "s1") (Some (str "Zoya")) None None None;
    mkUserDoc (str "s2") (Some (str "Amit")) None None None;
    mkUserDoc (str "s3") (Some (str "Ravi")) None None None ].

(** 2025-11-11, 09:20 in India; the webhook answers 204. *)
Definition sample_world : World :=
  mkWorld 1762833000000 0 (inr sample_users) (inr GoalSpec.sample_goals)
    (λ _, StatusCode 204) 1762833001000 1762833002000.

(** The users query fails and the webhook answers 500. *)
Definition failing_world : World :=
  mkWorld 1762833000000 0 (inl (mkError (str "quota exceeded")))
    (inr GoalSpec.sample_goals) (λ _, StatusCode 500)
    1762833001000 1762833002000.

(** No student at all. *)
Definition empty_world : World :=
  mkWorld 1762833000000 0 (inr []) (inr GoalSpec.sample_goals)
    (λ _, StatusCode 204) 1762833001000 1762833002000.

(** 2025-11-11, 09:20 in India (03:50 UTC), on a machine whose clock is set
    to UTC; the only student submitted her goal at 05:00 in India that same
    day (23:30 UTC of the day before). *)
Definition early_goal : Submission :=
  mkSubmission (Some (str "s1")) 1762817400000.

Definition early_world : World :=
  mkWorld 1762833000000 0
    (inr [ mkUserDoc (str "s1") (Some (str "Zoya")) None None None ])
    (inr [ early_goal ]) (λ _, StatusCode 204) 1762833001000 1762833002000.

End RunSpec.

(** ** Vocabulary for the notification banner *)

Module NotificationSpec.
Import MentorCampusTab.

(** A pending timeout lies in the future and no further away than the
    delay of its effect; a timeout is pending exactly while its message is
    on display. *)
Record wf (s : State) : Prop := mkWf {
  wf_success_timer : ∀ d, successTimer s = Some d → clock s < d ≤ clock s + 3000;
  wf_success_shown : successMessage s ≠ [] ↔ is_Some (successTimer s);
  wf_error_timer : ∀ d, errorTimer s = Some d → clock s < d ≤ clock s + 5000;
  wf_error_shown : errorMessage s ≠ [] ↔ is_Some (errorTimer s)
}.

(** The message is gone, or its timeout is pending and due by [deadline]. *)
Definition successClearsBy (deadline : Z) (s : State) : Prop :=
  successMessage s = [] ∨
  ∃ d, successTimer s = Some d ∧ clock s < d ≤ deadline.


(** A banner text, and five seconds passing in two stretches around the
    end of the action. *)
Definition sample_message : jsstring := str "Goal approved successfully!".






End NotificationSpec.

(** ** Vocabulary for the further properties *)

Module ExtraSpec.
Import Report.

(** Two answers of the store that differ at most in the order of their
    documents. *)
Definition reordered {A} (r r' : JsError + list A) : Prop :=
  match r, r' with
  | inl e, inl e' => e = e'
  | inr l, inr l' => l ≡ₚ l'
  | _, _ => False
  end.

(** The same run with other answers to its two queries. *)
Definition with_documents (users : JsError + list UserDoc)
    (subs : JsError + list Submission) (w : World) : World :=
  mkWorld (now w) (tz w) users subs (webhook w) (report_time w) (error_time w).

(** The two fields whose text grows with the data: the names of the absent
    students and the text of an error. *)
Definition grows_with_data (f : Field) : Prop :=
  f_name f = GoalSpec.absentStudentsField ∨ f_name f = "Error".

(** Both variables set, the first one to a text that [JSON.parse] accepts
    and whose value the client library takes as a service account. *)
Definition configured (JSON_parses initializes : jsstring → bool)
    (env : Script.Env) : Prop :=
  Script.is_set (Script.FIREBASE_SERVICE_ACCOUNT env) = true ∧
  Script.is_set (Script.DISCORD_WEBHOOK_URL env) = true ∧
  ∃ text, Script.FIREBASE_SERVICE_ACCOUNT env = Some text ∧
          JSON_parses text = true ∧ initializes text = true.

(** A service account with a project id (code unit 34 is the double
    quote), an environment with both variables, a parser that asks for an
    opening brace and a client library that refuses the empty object. *)
Definition sample_account : jsstring :=
  [123%N; 34%N] ++ str "project_id" ++ [34%N; 58%N; 34%N] ++ str "campus" ++
  [34%N; 125%N].

Definition sample_env : Script.Env :=
  Script.mkEnv (Some sample_account) (Some (str "https://discord.example/hook")).

Definition sample_parses (text : jsstring) : bool :=
  bool_decide (head text = Some 123%N).

Definition sample_initializes (text : jsstring) : bool :=
  negb (bool_decide (text = str "{}")).

(** A review that goes through in 400 ms followed by a refresh that throws
    after 600 ms without a message. *)
Definition refresh_fails : ApprovalHandlers.Outcome :=
  ApprovalHandlers.mkOutcome 400 None 600 (Some None).

(** What else touches the component during an await: nothing sets a
    message; nothing sets the processing mark. *)
Definition sets_processing (e : MentorCampusTab.Event) : bool :=
  match e with MentorCampusTab.SetProcessing _ => true | _ => false end.

Definition sets_no_message (events : list MentorCampusTab.Event) : Prop :=
  forallb (λ e, negb (MentorCampusTab.sets_success e) &&
                negb (MentorCampusTab.sets_error e)) events = true.

Definition keeps_mark (events : list MentorCampusTab.Event) : Prop :=
  forallb (λ e, negb (sets_processing e)) events = true.

(** The same two awaits with nothing else going on, and a refresh of
    600 ms during which, 200 ms in, a call for the goal [g2] starts. *)
Definition quiet_review : ApprovalHandlers.Await :=
  ApprovalHandlers.alone 400 None.

Definition failing_refresh : ApprovalHandlers.Await :=
  ApprovalHandlers.alone 600 (Some None).

Definition overlapped_refresh : ApprovalHandlers.Await :=
  ApprovalHandlers.mkAwait
    ([ MentorCampusTab.Elapse 200 ] ++
     ApprovalHandlers.startEvents (str "g2") ++
     [ MentorCampusTab.Elapse 400 ])
    None.

(** The same run with other answers of the webhook. *)
Definition with_webhook (hook : nat → Response) (w : World) : World :=
  mkWorld (now w) (tz w) (users_snapshot w) (submissions_snapshot w) hook
    (report_time w) (error_time w).

(** The report is built and the webhook answers 500 to everything. *)
Definition rejecting_world : World :=
  with_webhook (λ _, StatusCode 500) RunSpec.sample_world.

(** The four ways a run of [main] can go, with [is_report] telling the
    message the script builds and [fail] its failure handler: no student;
    report accepted; a failure before the report; report rejected. *)
Definition ends_in_one_of (w : World) (run : Run) (is_report : Embed → Prop)
    (fail : list Payload → Response → JsError → Run) : Prop :=
  run = mkRun 0 [] [] ∨
  (∃ r, is_report r ∧ run = mkRun 0 [[r]] [] ∧
        sendDiscordNotification (webhook w 0) = inr ()) ∨
  (∃ e, run = fail [] (webhook w 0) e) ∨
  (∃ r e, is_report r ∧
          sendDiscordNotification (webhook w 0) = inl e ∧
          run = fail [[r]] (webhook w 1) e).

Definition is_goal_report (toFixed1 : Z → Z → jsstring) (r : Embed) : Prop :=
  ∃ todayDate time present absent all,
    r = GoalReport.report toFixed1 todayDate time present absent all.

Definition is_reflection_report (toFixed1 : Z → Z → jsstring)
    (text_ge : jsstring → Z → bool) (r : Embed) : Prop :=
  ∃ todayDate time presentCount totalCount,
    r = ReflectionReport.report toFixed1 text_ge todayDate time
          presentCount totalCount.

End ExtraSpec.

(** * Properties *)

Module MentorshipProps.
Import MentorshipService MentorshipSpec.

Lemma truthy_not_absent v : truthy v = true → v ≠ JUndefined ∧ v ≠ JNull.
Proof. by destruct v. Qed.

Lemma omitted_unless_truthy_intro (d : doc) k supplied :
  d !! k = (if truthy supplied then Some supplied else None) →
  omitted_unless_truthy d k supplied.
Proof.
  intros Hk. unfold omitted_unless_truthy. rewrite Hk.
  destruct (truthy supplied) eqn:Ht.
  - split; [split; [done | by eexists] |].
    intros v [= <-]. by destruct (truthy_not_absent _ Ht).
  - split; [split; [by intros [? ?] | done] | done].
Qed.

Lemma requestData_optional studentId requestedMentorId currentMentorId reason
    student requestedMentor currentMentor now :
  let r := requestData studentId requestedMentorId currentMentorId reason
             student requestedMentor currentMentor now in
  r !! "current_mentor_id"
    = (if truthy currentMentorId then Some currentMentorId else None) ∧
  r !! "current_mentor_name"
    = (if truthy (opt_prop currentMentor "name")
       then Some (opt_prop currentMentor "name") else None) ∧
  r !! "reason" = (if truthy reason then Some reason else None).
Proof.
  unfold requestData; cbn zeta.
  destruct (truthy currentMentorId), (truthy (opt_prop currentMentor "name")),
    (truthy reason); repeat split; by simplify_map_eq.
Qed.

Lemma approveUpdateData_optional adminId adminNotes now :
  approveUpdateData adminId adminNotes now !! "admin_notes"
    = (if truthy adminNotes then Some adminNotes else None).
Proof.
  unfold approveUpdateData; cbn zeta.
  destruct (truthy adminNotes); by simplify_map_eq.
Qed.

(** C1. In the record persisted by [requestMentorChange] and in the update
    persisted by [approveMentorRequest], each optional field
    ([current_mentor_id], [current_mentor_name], [reason], [admin_notes]) is
    a key of the record exactly when the value supplied for it is truthy, it
    then holds that value, and it never holds [null] or [undefined]. *)
Theorem optional_fields_omitted_not_nulled
    studentId requestedMentorId currentMentorId reason
    student requestedMentor currentMentor adminId adminNotes now now' :
  let r := requestData studentId requestedMentorId currentMentorId reason
             student requestedMentor currentMentor now in
  let u := approveUpdateData adminId adminNotes now' in
  omitted_unless_truthy r "current_mentor_id" currentMentorId ∧
  omitted_unless_truthy r "current_mentor_name" (opt_prop currentMentor "name") ∧
  omitted_unless_truthy r "reason" reason ∧
  omitted_unless_truthy u "admin_notes" adminNotes.
Proof.
  intros r u.
  destruct (requestData_optional studentId requestedMentorId currentMentorId
              reason student requestedMentor currentMentor now) as (H1 & H2 & H3).
  pose proof (approveUpdateData_optional adminId adminNotes now') as H4.
  subst r u. split_and!; by apply omitted_unless_truthy_intro.
Qed.

(** A request without current mentor and with an empty reason has neither
    key; an approval without notes has no [admin_notes] and status approved. *)
Example request_without_optionals :
  let r := requestData (str "s1") (str "m2") JUndefined (JStr [])
             {[ "name" := JStr (str "Zoya") ]} {[ "name" := JStr (str "Amit") ]}
             None 0 in
  r !! "current_mentor_id" = None ∧ r !! "current_mentor_name" = None ∧
  r !! "reason" = None ∧ r !! "status" = Some (JStr (str "pending")).
Proof. vm_compute. done. Qed.

Example approval_without_notes :
  let u := approveUpdateData (str "admin") JUndefined 0 in
  u !! "admin_notes" = None ∧ u !! "status" = Some (JStr (str "approved")).
Proof. vm_compute. done. Qed.

(** *** Lifecycle transitions *)

Lemma terminal_not_pending request : terminal request → ¬ pending request.
Proof. unfold terminal, pending. intros [-> | ->]; discriminate. Qed.

Lemma getPendingRequest_terminal s requestId request :
  mentor_requests s !! requestId = Some request → terminal request →
  getPendingRequest requestId s = (s, inl InvalidStateError).
Proof.
  intros Hreq Hterm. unfold getPendingRequest. rewrite Hreq.
  case_decide as Hp; [|done]. by destruct (terminal_not_pending _ Hterm).
Qed.

Lemma getPendingRequest_pending s requestId request :
  mentor_requests s !! requestId = Some request → pending request →
  getPendingRequest requestId s = (s, inr request).
Proof.
  intros Hreq Hp. unfold getPendingRequest. rewrite Hreq. by case_decide.
Qed.

(** The shape of a successful request-then-student update sequence. *)
Lemma two_writes_success s s' requestId rdata sidv udata :
  (updateRequest requestId rdata ;;; updateUser sidv udata) s = (s', inr ()) →
  ∃ sid old student,
    sidv = JStr sid ∧
    mentor_requests s !! requestId = Some old ∧
    users s !! sid = Some student ∧
    mentor_requests s' = <[requestId := rdata ∪ old]> (mentor_requests s) ∧
    users s' = <[sid := udata ∪ student]> (users s) ∧
    writes s' = WriteUser sid udata :: WriteRequest requestId rdata :: writes s.
Proof.
  unfold bind, updateRequest, updateUser.
  destruct (has_absence_marker rdata); [done|].
  destruct (mentor_requests s !! requestId) as [old|] eqn:Hold; [|done].
  destruct sidv as [| |sid|]; try done.
  destruct (has_absence_marker udata); [done|]. cbn.
  destruct (users s !! sid) as [student|] eqn:Hst; [|done].
  intros [= <-]. by exists sid, old, student.
Qed.

(** C2. A request whose status is approved or rejected stays as it is: both
    [approveMentorRequest] and [rejectMentorRequest] fail on it with
    [InvalidStateError], and the store they return (requests, users and the
    list of accepted writes) is the store they were given. *)
Theorem terminal_request_refuses_transition
    (s : Store) (requestId adminId : jsstring) (adminNotes : jsval) (now : Z)
    (request : doc)
    (Hreq : mentor_requests s !! requestId = Some request)
    (Hterm : terminal request) :
  approveMentorRequest requestId adminId adminNotes now s
    = (s, inl InvalidStateError) ∧
  rejectMentorRequest requestId adminId adminNotes now s
    = (s, inl InvalidStateError).
Proof.
  unfold approveMentorRequest, rejectMentorRequest, bind.
  by rewrite (getPendingRequest_terminal _ _ _ Hreq Hterm).
Qed.

(** C3. On a pending request, a successful [approveMentorRequest] leaves the
    student with [mentor_id] equal to the request's [requested_mentor_id]
    and [pending_mentor_id] equal to the empty string; a successful
    [rejectMentorRequest] sets [pending_mentor_id] to the empty string and
    leaves every other field of the student, [mentor_id] included, as it
    was. *)
Theorem student_pointer_after_review
    (s : Store) (requestId adminId : jsstring) (adminNotes : jsval) (now : Z)
    (request : doc)
    (Hreq : mentor_requests s !! requestId = Some request)
    (Hpend : pending request) :
  (∀ s', approveMentorRequest requestId adminId adminNotes now s = (s', inr ()) →
     ∃ sid student',
       prop request "student_id" = JStr sid ∧
       users s' !! sid = Some student' ∧
       student' !! "mentor_id" = Some (prop request "requested_mentor_id") ∧
       student' !! "pending_mentor_id" = Some (JStr [])) ∧
  (∀ s', rejectMentorRequest requestId adminId adminNotes now s = (s', inr ()) →
     ∃ sid student student',
       prop request "student_id" = JStr sid ∧
       users s !! sid = Some student ∧
       users s' !! sid = Some student' ∧
       student' !! "pending_mentor_id" = Some (JStr []) ∧
       student' !! "mentor_id" = student !! "mentor_id" ∧
       ∀ k, k ≠ "pending_mentor_id" → student' !! k = student !! k).
Proof.
  split; intros s'; unfold approveMentorRequest, rejectMentorRequest;
    unfold bind at 1; rewrite (getPendingRequest_pending _ _ _ Hreq Hpend);
    intros Hrun; apply two_writes_success in Hrun
      as (sid & old & student & Hsid & _ & Hst & _ & Husers & _).
  - exists sid, (approveStudentUpdate request ∪ student).
    rewrite Husers, lookup_insert_eq. split_and!; try done.
    + unfold approveStudentUpdate.
      apply lookup_union_Some_l. by simplify_map_eq.
    + unfold approveStudentUpdate.
      apply lookup_union_Some_l. by simplify_map_eq.
  - exists sid, student, (rejectStudentUpdate request ∪ student).
    rewrite Husers, lookup_insert_eq.
    assert (∀ k, k ≠ "pending_mentor_id" →
              (rejectStudentUpdate request ∪ student) !! k = student !! k) as Hk.
    { intros k Hne. unfold rejectStudentUpdate.
      apply lookup_union_r. by simplify_map_eq. }
    split_and!; try done.
    + unfold rejectStudentUpdate.
      apply lookup_union_Some_l. by simplify_map_eq.
    + by apply Hk.
Qed.

(** A successful review makes the request terminal, so a second review of
    the same request is refused. *)
Lemma approve_then_terminal s s' requestId adminId adminNotes now :
  approveMentorRequest requestId adminId adminNotes now s = (s', inr ()) →
  ∃ request', mentor_requests s' !! requestId = Some request' ∧
              prop request' "status" = JStr (str "approved").
Proof.
  unfold approveMentorRequest. unfold bind at 1.
  destruct (getPendingRequest requestId s) as [s0 [e|request]] eqn:Hget; [done|].
  assert (s0 = s) as ->.
  { unfold getPendingRequest in Hget.
    destruct (mentor_requests s !! requestId); [|by inversion Hget].
    case_decide; by inversion Hget. }
  intros Hrun. apply two_writes_success in Hrun
    as (sid & old & student & _ & _ & _ & Hreqs & _ & _).
  eexists. rewrite Hreqs, lookup_insert_eq. split; [done|].
  unfold prop, approveUpdateData.
  erewrite lookup_union_Some_l; [done|].
  destruct (truthy adminNotes); by simplify_map_eq.
Qed.

Lemma approve_is_final s s' requestId adminId adminNotes now adminId' notes' now' :
  approveMentorRequest requestId adminId adminNotes now s = (s', inr ()) →
  approveMentorRequest requestId adminId' notes' now' s'
    = (s', inl InvalidStateError) ∧
  rejectMentorRequest requestId adminId' notes' now' s'
    = (s', inl InvalidStateError).
Proof.
  intros (request' & Hreq & Hst)%approve_then_terminal.
  unfold approveMentorRequest, rejectMentorRequest, bind.
  rewrite (getPendingRequest_terminal _ _ _ Hreq); [done|by left].
Qed.

(** Approval goes through whenever the store can accept both writes. *)
Lemma approve_succeeds s requestId adminId adminNotes now request sid student :
  mentor_requests s !! requestId = Some request → pending request →
  adminNotes ≠ JUndefined →
  prop request "student_id" = JStr sid →
  prop request "requested_mentor_id" ≠ JUndefined →
  users s !! sid = Some student →
  ∃ s', approveMentorRequest requestId adminId adminNotes now s = (s', inr ()).
Proof.
  intros Hreq Hpend Hnotes Hsid Hmid Hst.
  unfold approveMentorRequest. unfold bind at 1.
  rewrite (getPendingRequest_pending _ _ _ Hreq Hpend).
  unfold bind, updateRequest, updateUser. rewrite Hsid.
  assert (has_absence_marker (approveUpdateData adminId adminNotes now) = false) as ->.
  { unfold has_absence_marker. apply bool_decide_eq_false.
    intros (k & v & Hk & ->). unfold approveUpdateData in Hk.
    destruct (truthy adminNotes);
      repeat (apply lookup_insert_Some in Hk as [[_ Hk]|[_ Hk]]; [done|]);
      done. }
  rewrite Hreq.
  assert (has_absence_marker (approveStudentUpdate request) = false) as ->.
  { unfold has_absence_marker. apply bool_decide_eq_false.
    intros (k & v & Hk & ->). unfold approveStudentUpdate in Hk.
    repeat (apply lookup_insert_Some in Hk as [[_ Hk]|[_ Hk]]; [done|]);
      done. }
  cbn. rewrite Hst. by eexists.
Qed.

Lemma terminal_request_refuses_transition_witness :
  approveMentorRequest (str "r1") (str "admin") JUndefined 0
      (sample_store "approved")
    = (sample_store "approved", inl InvalidStateError) ∧
  rejectMentorRequest (str "r1") (str "admin") JUndefined 0
      (sample_store "approved")
    = (sample_store "approved", inl InvalidStateError).
Proof.
  apply (terminal_request_refuses_transition (sample_store "approved")
           (str "r1") (str "admin") JUndefined 0 (sample_request "approved")).
  - vm_compute; reflexivity.
  - left. vm_compute; reflexivity.
Defined.

Lemma student_pointer_after_review_witness :
  (∃ s' student',
     approveMentorRequest (str "r1") (str "admin") JUndefined 0
       (sample_store "pending") = (s', inr ()) ∧
     users s' !! str "s1" = Some student' ∧
     student' !! "mentor_id" = Some (JStr (str "m2")) ∧
     student' !! "pending_mentor_id" = Some (JStr [])) ∧
  (∃ s' student',
     rejectMentorRequest (str "r1") (str "admin") JUndefined 0
       (sample_store "pending") = (s', inr ()) ∧
     users s' !! str "s1" = Some student' ∧
     student' !! "mentor_id" = Some (JStr (str "m1")) ∧
     student' !! "pending_mentor_id" = Some (JStr [])).
Proof.
  destruct (student_pointer_after_review (sample_store "pending")
              (str "r1") (str "admin") JUndefined 0 (sample_request "pending"))
    as [Happ Hrej].
  - vm_compute; reflexivity.
  - vm_compute; reflexivity.
  - split.
    + destruct (Happ (approveMentorRequest (str "r1") (str "admin") JUndefined 0
                        (sample_store "pending")).1)
        as (sid & student' & Hsid & Hst & Hm & Hp).
      { vm_compute; reflexivity. }
      injection Hsid as <-.
      eexists _, student'. split; [vm_compute; reflexivity|].
      split; [exact Hst|]. split; [|exact Hp].
      rewrite Hm. vm_compute; reflexivity.
    + destruct (Hrej (rejectMentorRequest (str "r1") (str "admin") JUndefined 0
                        (sample_store "pending")).1)
        as (sid & student & student' & Hsid & Hst & Hst' & Hp & Hm & _).
      { vm_compute; reflexivity. }
      injection Hsid as <-.
      eexists _, student'. split; [vm_compute; reflexivity|].
      split; [exact Hst'|]. split; [|exact Hp]. rewrite Hm.
      assert (student = <["mentor_id" := JStr (str "m1")]>
                        (<["pending_mentor_id" := JStr (str "m2")]> ∅)) as ->.
      { apply (inj Some). rewrite <- Hst. vm_compute; reflexivity. }
      vm_compute; reflexivity.
Defined.

End MentorshipProps.

(** ** The webhook transport *)

Module TransportProps.
Import Report.

Lemma sendDiscordNotification_status statusCode :
  sendDiscordNotification (StatusCode statusCode) =
    if bool_decide (statusCode = 200 ∨ statusCode = 204) then inr ()
    else inl (mkError (str "Discord API error: " ++ String_of_int statusCode)).
Proof.
  unfold sendDiscordNotification.
  destruct (Z.eqb_spec statusCode 204), (Z.eqb_spec statusCode 200);
    case_bool_decide; simpl; try done; lia.
Qed.

(** C8. A webhook post, in either reporter, succeeds exactly when the
    response status is 200 or 204; every other status and every request
    error makes [sendDiscordNotification] reject with an error. *)
Theorem post_succeeds_iff_200_or_204 (r : Response) :
  (sendDiscordNotification r = inr () ↔
     ∃ statusCode, r = StatusCode statusCode ∧ (statusCode = 200 ∨ statusCode = 204)) ∧
  ((¬ ∃ statusCode, r = StatusCode statusCode ∧ (statusCode = 200 ∨ statusCode = 204)) ↔
     ∃ error, sendDiscordNotification r = inl error) ∧
  (∀ error, r = RequestError error → sendDiscordNotification r = inl error).
Proof.
  split_and!.
  - destruct r as [c|e].
    + rewrite sendDiscordNotification_status. case_bool_decide as Hc.
      * split; [intros _; by exists c | done].
      * split; [done | intros (c' & [= <-] & Hc'); done].
    + split; [done | intros (c & ? & _); done].
  - destruct r as [c|e].
    + rewrite sendDiscordNotification_status. case_bool_decide as Hc.
      * split; [intros Hn; destruct Hn; by exists c | intros [e He]; done].
      * split; [intros _; by eexists | intros _ (c' & [= <-] & Hc'); done].
    + split; [intros _; by exists e | intros _ (c & ? & _); done].
  - by intros error ->.
Qed.

End TransportProps.

(** ** Today's date and today's range *)

Module CalendarProps.
Import Report CalendarSpec.

(** *** Day numbers and dates *)

Lemma civil_from_days_inverse z :
  ∃ y m d, civil_from_days z = (y, m, d) ∧
           1 ≤ m ≤ 12 ∧ 1 ≤ d ≤ 31 ∧ days_from_civil y m d = z.
Proof.
  unfold civil_from_days.
  set (z' := z + 719468).
  set (era := z' / 146097).
  set (doe := z' - era * 146097).
  set (yoe := (doe - doe / 1460 + doe / 36524 - doe / 146096) / 365).
  set (doy := doe - (365 * yoe + yoe / 4 - yoe / 100)).
  set (mp := (5 * doy + 2) / 153).
  set (d := doy - (153 * mp + 2) / 5 + 1).
  cbv zeta.
  assert (0 ≤ doe < 146097) as Hdoe by (subst doe era; Z.div_mod_to_equations; lia).
  assert (0 ≤ yoe ≤ 399 ∧ 0 ≤ doy ≤ 365) as [Hyoe Hdoy].
  { subst doy yoe. clearbody doe. Z.div_mod_to_equations; lia. }
  assert (0 ≤ mp ≤ 11 ∧ 1 ≤ d ≤ 31) as [Hmp Hd].
  { subst d mp. clearbody doy. Z.div_mod_to_equations; lia. }
  eexists _, _, _. split; [reflexivity|].
  assert ((yoe + era * 400) / 400 = era) as Hera.
  { symmetry. apply (Z.div_unique _ _ _ yoe); lia. }
  clearbody mp yoe era.
  unfold days_from_civil.
  destruct (Z.ltb_spec mp 10).
  - destruct (Z.leb_spec (mp + 3) 2); [lia|].
    destruct (Z.ltb_spec 2 (mp + 3)); [|lia].
    split; [lia|]. split; [lia|]. cbv zeta.
    replace (mp + 3 - 3) with mp by lia. rewrite Hera.
    replace (yoe + era * 400 - era * 400) with yoe by lia.
    subst d doy doe z'. lia.
  - destruct (Z.leb_spec (mp - 9) 2); [|lia].
    destruct (Z.ltb_spec 2 (mp - 9)); [lia|].
    split; [lia|]. split; [lia|]. cbv zeta.
    replace (mp - 9 + 9) with mp by lia.
    replace (yoe + era * 400 + 1 - 1) with (yoe + era * 400) by lia.
    rewrite Hera. replace (yoe + era * 400 - era * 400) with yoe by lia.
    subst d doy doe z'. lia.
Qed.

(** *** Decimal text *)

Lemma digit_digit_char d : digit (digit_char d) = Some (d mod 10).
Proof.
  unfold digit, digit_char.
  pose proof (Z.mod_pos_bound d 10 ltac:(lia)) as Hd.
  destruct (N.leb_spec 48 (Z.to_N (48 + d mod 10))); [|lia].
  destruct (N.leb_spec (Z.to_N (48 + d mod 10)) 57); [|lia].
  simpl. f_equal. lia.
Qed.

Lemma digits_snoc s c :
  digits (s ++ [c]) = a ← digits s; d ← digit c; Some (10 * a + d).
Proof. unfold digits. by rewrite foldl_app. Qed.

(** The fuel given by [String_of_int] is enough: the text of a number reads
    back as that number. *)
Lemma digits_decimal fuel n :
  0 ≤ n < 2 ^ Z.of_nat fuel → digits (decimal fuel n) = Some n.
Proof.
  revert n. induction fuel as [|fuel IH]; intros n Hn.
  - assert (n = 0) as -> by (simpl in Hn; lia). done.
  - cbn [decimal]. rewrite digits_snoc.
    fold (digit_char n). rewrite digit_digit_char.
    destruct (Z.ltb_spec n 10) as [Hlt|Hge].
    + cbn. f_equal. rewrite Z.mod_small; lia.
    + rewrite IH.
      * cbn. f_equal. Z.div_mod_to_equations; lia.
      * rewrite Nat2Z.inj_succ, Z.pow_succ_r in Hn by lia.
        Z.div_mod_to_equations; lia.
Qed.

Lemma digits_String_of_int n : 0 ≤ n → digits (String_of_int n) = Some n.
Proof.
  intros Hn. unfold String_of_int. destruct (Z.ltb_spec n 0); [lia|].
  apply digits_decimal. split; [done|].
  destruct (decide (n = 0)) as [->|Hne]; [done|].
  rewrite Nat2Z.inj_succ, Z2Nat.id by apply Z.log2_nonneg.
  apply Z.log2_spec. lia.
Qed.

Lemma decimal_1 fuel n :
  0 ≤ n < 10 → decimal (S fuel) n = [digit_char n].
Proof.
  intros H. simpl. destruct (Z.ltb_spec n 10); [done | lia].
Qed.

Lemma decimal_2 fuel n :
  10 ≤ n < 100 → decimal (S (S fuel)) n = [digit_char (n / 10); digit_char n].
Proof.
  intros H. cbn [decimal].
  destruct (Z.ltb_spec n 10); [lia|].
  destruct (Z.ltb_spec (n / 10) 10); [done|].
  Z.div_mod_to_equations; lia.
Qed.

Lemma decimal_4 fuel n :
  1000 ≤ n < 10000 →
  decimal (S (S (S (S fuel)))) n =
    [digit_char (n / 10 / 10 / 10); digit_char (n / 10 / 10);
     digit_char (n / 10); digit_char n].
Proof.
  intros H. cbn [decimal].
  destruct (Z.ltb_spec n 10); [lia|].
  destruct (Z.ltb_spec (n / 10) 10); [Z.div_mod_to_equations; lia|].
  destruct (Z.ltb_spec (n / 10 / 10) 10); [Z.div_mod_to_equations; lia|].
  destruct (Z.ltb_spec (n / 10 / 10 / 10) 10); [done|].
  Z.div_mod_to_equations; lia.
Qed.

Lemma fuel_enough n k :
  2 ^ Z.of_nat k ≤ n → ∃ fuel, Z.to_nat (Z.log2 n) = (k + fuel)%nat.
Proof.
  intros H. exists (Z.to_nat (Z.log2 n) - k)%nat.
  assert (Z.of_nat k ≤ Z.log2 n); [|lia].
  rewrite <- (Z.log2_pow2 (Z.of_nat k)) by lia. by apply Z.log2_le_mono.
Qed.

Lemma String_of_year y : 1000 ≤ y ≤ 9999 → String_of_int y = four_digits y.
Proof.
  intros H. unfold String_of_int. destruct (Z.ltb_spec y 0); [lia|].
  destruct (fuel_enough y 3) as [fuel ->]; [simpl; lia|].
  apply decimal_4. lia.
Qed.

Lemma padStart2_String n : 0 ≤ n ≤ 99 → padStart2 (String_of_int n) = two_digits n.
Proof.
  intros H. unfold String_of_int. destruct (Z.ltb_spec n 0); [lia|].
  destruct (decide (n < 10)) as [Hlt|Hge].
  - rewrite decimal_1 by lia. unfold padStart2, two_digits. simpl.
    unfold digit_char at 2. replace (n / 10) with 0; [done|].
    Z.div_mod_to_equations; lia.
  - destruct (fuel_enough n 1) as [fuel ->]; [simpl; lia|].
    rewrite decimal_2 by lia. done.
Qed.

Lemma digits_four n : 0 ≤ n ≤ 9999 → digits (four_digits n) = Some n.
Proof.
  intros H. unfold digits, four_digits. cbn [foldl].
  rewrite !digit_digit_char. cbn. f_equal. Z.div_mod_to_equations; lia.
Qed.

Lemma digits_two n : 0 ≤ n ≤ 99 → digits (two_digits n) = Some n.
Proof.
  intros H. unfold digits, two_digits. cbn [foldl].
  rewrite !digit_digit_char. cbn. f_equal. Z.div_mod_to_equations; lia.
Qed.

Lemma new_Date_forms tz (c1 c2 c3 c4 c5 c6 c7 c8 : N) y m d :
  digits [c1; c2; c3; c4] = Some y →
  digits [c5; c6] = Some m →
  digits [c7; c8] = Some d →
  1 ≤ m ≤ 12 → 1 ≤ d ≤ 31 →
  let s := [c1; c2; c3; c4] ++ str "-" ++ [c5; c6] ++ str "-" ++ [c7; c8] in
  new_Date tz s = Some (days_from_civil y m d * msPerDay) ∧
  new_Date tz (s ++ str "T23:59:59")
    = Some (days_from_civil y m d * msPerDay + 86399000 - tz * 60000).
Proof.
  intros Hy Hm Hd Hmr Hdr s.
  assert (parse_date s = Some (days_from_civil y m d)) as Hdate.
  { unfold parse_date, s, slice, char_at. cbn [app str fmap list_fmap
      list_ascii_of_string N_of_ascii N_of_digits lookup list_lookup take drop].
    simpl (N_of_ascii _).
    rewrite !bool_decide_eq_true_2 by done. cbn [andb].
    rewrite Hy, Hm, Hd. cbn [mbind option_bind].
    destruct (Z.leb_spec 1 m), (Z.leb_spec m 12), (Z.leb_spec 1 d),
      (Z.leb_spec d 31); try lia. done. }
  split.
  - unfold new_Date. rewrite bool_decide_eq_true_2 by done.
    rewrite Hdate. done.
  - unfold new_Date. rewrite bool_decide_eq_false_2 by done.
    rewrite bool_decide_eq_true_2 by done.
    assert (char_at (s ++ str "T23:59:59") 10 84%N = true) as -> by done.
    cbn [andb].
    assert (slice 0 10 (s ++ str "T23:59:59") = s) as -> by done.
    assert (slice 11 8 (s ++ str "T23:59:59") = str "23:59:59") as -> by done.
    rewrite Hdate. done.
Qed.

(** *** What the range query asks for *)

Lemma getTodayDateIST_text now y m d :
  civil_from_days (today now) = (y, m, d) →
  1000 ≤ y ≤ 9999 → 1 ≤ m ≤ 12 → 1 ≤ d ≤ 31 →
  getTodayDateIST now =
    four_digits y ++ str "-" ++ two_digits m ++ str "-" ++ two_digits d.
Proof.
  intros Hc Hy Hm Hd.
  unfold getTodayDateIST, getUTCFullYear, getUTCMonth, getUTCDate.
  cbv zeta. fold (today now). rewrite Hc. cbn [fst snd].
  replace (m - 1 + 1) with m by lia.
  rewrite String_of_year by done.
  by rewrite !padStart2_String by lia.
Qed.

(** In a year written with four digits, the two bounds are midnight UTC of
    the day named by [getTodayDateIST] and one second before the next
    midnight in the time zone of the process. *)
Lemma todayRange_today now tz :
  1000 ≤ getUTCFullYear (now + istOffset) ≤ 9999 →
  todayRange tz (getTodayDateIST now) =
    Some (today now * msPerDay,
          today now * msPerDay + 86399000 - tz * 60000).
Proof.
  intros Hyear.
  destruct (civil_from_days_inverse (today now))
    as (y & m & d & Hc & Hm & Hd & Hinv).
  assert (1000 ≤ y ≤ 9999) as Hy.
  { unfold getUTCFullYear in Hyear. fold (today now) in Hyear.
    by rewrite Hc in Hyear. }
  rewrite (getTodayDateIST_text now y m d) by done.
  destruct (new_Date_forms tz
              (digit_char (y / 10 / 10 / 10)) (digit_char (y / 10 / 10))
              (digit_char (y / 10)) (digit_char y)
              (digit_char (m / 10)) (digit_char m)
              (digit_char (d / 10)) (digit_char d) y m d)
    as [Hstart Hend]; try done.
  - apply digits_four. lia.
  - apply digits_two. lia.
  - apply digits_two. lia.
  - unfold todayRange. unfold four_digits, two_digits.
    rewrite <- !(assoc_L (++)) in Hend.
    rewrite Hstart. cbn [mbind option_bind].
    rewrite <- !(assoc_L (++)). rewrite Hend. cbn [mbind option_bind].
    by rewrite Hinv.
Qed.

(** The calendar day in India of an instant is [today]; its first instant
    is never inside the range asked for on that day. *)
Lemma ist_midnight_outside_range now tz :
  1000 ≤ getUTCFullYear (now + istOffset) ≤ 9999 →
  let midnight := today now * msPerDay - istOffset in
  today midnight = today now ∧
  ∃ range, todayRange tz (getTodayDateIST now) = Some range ∧
           in_range range midnight = false.
Proof.
  intros Hyear midnight. split.
  - unfold today, midnight, msPerDay.
    replace (today now * 86400000 - istOffset + istOffset)
      with (today now * 86400000) by lia.
    by rewrite Z.div_mul.
  - eexists. split; [by apply todayRange_today|].
    unfold in_range, midnight, istOffset. cbn [fst snd].
    destruct (Z.leb_spec (today now * msPerDay) (today now * msPerDay - 19800000));
      [lia | done].
Qed.

End CalendarProps.

(** ** The goal reporter: who is present, who is absent *)

Module GoalProps.
Import Report GoalReport GoalSpec.

(** *** The order used by [sort] *)

Lemma jsstring_leb_total a b : jsstring_leb a b = true ∨ jsstring_leb b a = true.
Proof.
  revert b. induction a as [|x a IH]; intros [|y b]; simpl; auto.
  destruct (N.ltb_spec x y), (N.ltb_spec y x); auto; lia.
Qed.

Lemma jsstring_leb_trans a b c :
  jsstring_leb a b = true → jsstring_leb b c = true → jsstring_leb a c = true.
Proof.
  revert b c. induction a as [|x a IH]; intros [|y b] [|z c]; simpl; try done.
  destruct (N.ltb_spec x y), (N.ltb_spec y x), (N.ltb_spec y z),
    (N.ltb_spec z y), (N.ltb_spec x z), (N.ltb_spec z x);
    try done; try lia; eauto.
Qed.

Lemma jsstring_leb_antisym a b :
  jsstring_leb a b = true → jsstring_leb b a = true → a = b.
Proof.
  revert b. induction a as [|x a IH]; intros [|y b]; simpl; try done.
  destruct (N.ltb_spec x y), (N.ltb_spec y x); try done; try lia.
  intros. f_equal; [lia | eauto].
Qed.

#[global] Instance jsstring_le_total : Total jsstring_le.
Proof. intros a b. apply jsstring_leb_total. Qed.

#[global] Instance jsstring_le_trans : Transitive jsstring_le.
Proof. intros a b c. apply jsstring_leb_trans. Qed.

#[global] Instance jsstring_le_antisymm : AntiSymm (=) jsstring_le.
Proof. intros a b. apply jsstring_leb_antisym. Qed.

Lemma sort_sorted l : StronglySorted jsstring_le (sort l).
Proof. apply StronglySorted_merge_sort; apply _. Qed.

Lemma sort_perm l : sort l ≡ₚ l.
Proof. apply merge_sort_Permutation. Qed.

(** Whatever algorithm the engine uses, the outcome is this list: a sorted
    rearrangement is unique. *)
Lemma sort_unique l l' :
  l' ≡ₚ l → StronglySorted jsstring_le l' → l' = sort l.
Proof.
  intros Hp Hs.
  apply (Sorted_unique jsstring_le).
  - by apply StronglySorted_Sorted.
  - apply StronglySorted_Sorted, sort_sorted.
  - by rewrite sort_perm.
Qed.

(** *** The two lists built by the [forEach] *)

Lemma separate_acc (ids : gset jsstring) (l p a : list Student) :
  foldl (λ acc student,
           if bool_decide (id student ∈ ids)
           then (acc.1 ++ [student], acc.2)
           else (acc.1, acc.2 ++ [student])) (p, a) l
  = (p ++ filter (λ s, id s ∈ ids) l, a ++ filter (λ s, id s ∉ ids) l).
Proof.
  revert p a. induction l as [|s l IH]; intros p a; simpl.
  - by rewrite !app_nil_r.
  - rewrite !filter_cons. case_bool_decide as Hin; simpl; rewrite IH.
    + rewrite decide_True by done. rewrite decide_False by naive_solver.
      by rewrite <- app_assoc.
    + rewrite decide_False by done. rewrite decide_True by done.
      by rewrite <- app_assoc.
Qed.

Lemma separate_filter (ids : gset jsstring) (l : list Student) :
  separate ids l
  = (filter (λ s, id s ∈ ids) l, filter (λ s, id s ∉ ids) l).
Proof. exact (separate_acc ids l [] []). Qed.

Lemma filter_split_length {A} (P : A → Prop) `{∀ x, Decision (P x)} (l : list A) :
  (length (filter P l) + length (filter (λ x, ¬ P x) l) = length l)%nat.
Proof.
  induction l as [|x l IH]; [done|].
  rewrite !filter_cons. destruct (decide (P x)).
  - rewrite decide_False by naive_solver. simpl. lia.
  - rewrite decide_True by done. simpl. lia.
Qed.

(** *** The set of identifiers that submitted today *)

Lemma collect_ids_acc (snapshot : list Submission) (acc : gset jsstring) sid :
  sid ∈ foldl (λ ids d,
                 match student_id d with
                 | Some sid => if bool_decide (sid = []) then ids else {[ sid ]} ∪ ids
                 | None => ids
                 end) acc snapshot
  ↔ sid ∈ acc ∨ (sid ≠ [] ∧ ∃ d, d ∈ snapshot ∧ student_id d = Some sid).
Proof.
  revert acc. induction snapshot as [|d l IH]; intros acc; simpl.
  - split; [auto | intros [?|(_ & d & Hd & _)]; [done | by apply elem_of_nil in Hd]].
  - rewrite IH. destruct (student_id d) as [sid'|] eqn:Hd.
    + case_bool_decide as He.
      * split.
        { intros [?|(Hne & d' & Hin & Hs)]; [auto|].
          right. split; [done|]. exists d'. split; [by right | done]. }
        { intros [?|(Hne & d' & Hin & Hs)]; [auto|].
          apply elem_of_cons in Hin as [->|Hin]; [congruence|].
          right. split; [done|]. by exists d'. }
      * rewrite elem_of_union, elem_of_singleton. split.
        { intros [[->|?]|(Hne & d' & Hin & Hs)]; [|auto|].
          - right. split; [done|]. exists d. split; [by left | done].
          - right. split; [done|]. exists d'. split; [by right | done]. }
        { intros [?|(Hne & d' & Hin & Hs)]; [auto|].
          apply elem_of_cons in Hin as [->|Hin].
          - left. left. congruence.
          - right. split; [done|]. by exists d'. }
    + split.
      * intros [?|(Hne & d' & Hin & Hs)]; [auto|].
        right. split; [done|]. exists d'. split; [by right | done].
      * intros [?|(Hne & d' & Hin & Hs)]; [auto|].
        apply elem_of_cons in Hin as [->|Hin]; [congruence|].
        right. split; [done|]. by exists d'.
Qed.

Lemma submittedToday_spec tz all todayDate range :
  todayRange tz todayDate = Some range →
  ∃ ids, submittedToday tz (inr all) todayDate = inr ids ∧
    ∀ sid, sid ∈ ids ↔
      sid ≠ [] ∧ ∃ d, d ∈ all ∧ in_range range (created_at d) = true ∧
                      student_id d = Some sid.
Proof.
  intros Hr. unfold submittedToday. rewrite Hr. eexists. split; [done|].
  intros sid. rewrite collect_ids_acc. split.
  - intros [Hin|(Hne & d & Hd & Hs)]; [by apply not_elem_of_empty in Hin|].
    apply list_elem_of_filter in Hd as [Hd1 Hd2]. split; [done|]. by exists d.
  - intros (Hne & d & Hd & Hrange & Hs). right. split; [done|].
    exists d. split; [|done]. by apply list_elem_of_filter.
Qed.

(** *** What a run posts *)

Lemma main_posts_report toFixed1 w allStudents ids :
  reportBuilt w allStudents ids →
  ∃ rest,
    posts (main toFixed1 w) =
      [ report toFixed1 (getTodayDateIST (now w)) (report_time w)
          (filter (λ s, id s ∈ ids) allStudents)
          (filter (λ s, id s ∉ ids) allStudents) allStudents ] :: rest.
Proof.
  intros (snapshot & Hu & -> & Hne & Hids). unfold main. rewrite Hu.
  case_bool_decide as Hlen; [by apply nil_length_inv in Hlen|].
  rewrite Hids, separate_filter.
  destruct (sendDiscordNotification (webhook w 0)) as [e|[]]; simpl.
  - unfold onFailure, handleFailure.
    destruct (sendDiscordNotification (webhook w 1)); simpl; by eexists.
  - by eexists.
Qed.

(** C5. In a run of the goal reporter that knows today's range, the
    students are split in two lists whose lengths add up to the number of
    students; a student is in the present list exactly when a submission with
    the student's identifier lies in the range, and in the absent list
    otherwise; the sorted name list has one name per absent student, is a
    rearrangement of their names and is in ascending order. *)
Theorem goal_attendance_partition
    (tz : Z) (all : list Submission) (todayDate : jsstring) (range : Z * Z)
    (allStudents : list Student)
    (Hids : Forall (λ s, id s ≠ []) allStudents)
    (Hrange : todayRange tz todayDate = Some range) :
  ∃ ids presentStudents absentStudents,
    getStudentsWithGoalsToday tz (inr all) todayDate = inr ids ∧
    separate ids allStudents = (presentStudents, absentStudents) ∧
    (length presentStudents + length absentStudents = length allStudents)%nat ∧
    (∀ s, s ∈ presentStudents ↔
          s ∈ allStudents ∧
          ∃ d, d ∈ all ∧ in_range range (created_at d) = true ∧
               student_id d = Some (id s)) ∧
    (∀ s, s ∈ absentStudents ↔ s ∈ allStudents ∧ s ∉ presentStudents) ∧
    length (absentNameList absentStudents) = length absentStudents ∧
    absentNameList absentStudents ≡ₚ name <$> absentStudents ∧
    StronglySorted jsstring_le (absentNameList absentStudents).
Proof.
  destruct (submittedToday_spec tz all todayDate range Hrange) as (ids & Hget & Hin).
  exists ids, (filter (λ s, id s ∈ ids) allStudents),
    (filter (λ s, id s ∉ ids) allStudents).
  split; [exact Hget|]. split; [apply separate_filter|].
  split; [apply (filter_split_length (λ s, id s ∈ ids))|].
  split; [|split; [|split; [|split]]].
  - intros s. rewrite list_elem_of_filter, Hin. split.
    + intros [(_ & d & Hd) Hs]. split; [done | by exists d].
    + intros [Hs (d & Hd)]. split; [|done]. split; [|by exists d].
      by apply (proj1 (Forall_forall _ _) Hids).
  - intros s. rewrite !list_elem_of_filter. split.
    + intros [Hn Hs]. split; [done|]. by intros [? _].
    + intros [Hs Hn]. split; [|done]. intros Hi. apply Hn. by split.
  - unfold absentNameList.
    rewrite (Permutation_length (sort_perm _)). apply length_fmap.
  - apply sort_perm.
  - apply sort_sorted.
Qed.

Lemma goal_attendance_partition_witness :
  ∃ ids presentStudents absentStudents,
    getStudentsWithGoalsToday 0 (inr sample_goals) (str "2025-11-11") = inr ids ∧
    separate ids sample_students = (presentStudents, absentStudents) ∧
    (length presentStudents + length absentStudents = length sample_students)%nat ∧
    (∀ s, s ∈ presentStudents ↔
          s ∈ sample_students ∧
          ∃ d, d ∈ sample_goals ∧
               in_range (1762819200000, 1762905599000) (created_at d) = true ∧
               student_id d = Some (id s)) ∧
    (∀ s, s ∈ absentStudents ↔ s ∈ sample_students ∧ s ∉ presentStudents) ∧
    length (absentNameList absentStudents) = length absentStudents ∧
    absentNameList absentStudents ≡ₚ name <$> absentStudents ∧
    StronglySorted jsstring_le (absentNameList absentStudents).
Proof.
  apply (goal_attendance_partition 0 sample_goals (str "2025-11-11")
           (1762819200000, 1762905599000) sample_students).
  - repeat constructor; discriminate.
  - vm_compute; reflexivity.
Defined.

Example sample_absent_names :
  absentNameList (filter (λ s, id s ∉ ({[ str "s2" ]} : gset jsstring)) sample_students)
  = [ str "Ravi"; str "Zoya" ].
Proof. vm_compute; reflexivity. Qed.

(** *** The absent-students field *)

Lemma absentFieldValue_short names :
  Z.of_nat (length names) ≤ 1000 → absentFieldValue names = names.
Proof.
  intros H. unfold absentFieldValue.
  destruct (Z.ltb_spec 1000 (Z.of_nat (length names))); [lia | done].
Qed.

Lemma absentFieldValue_long names :
  1000 < Z.of_nat (length names) →
  absentFieldValue names = substring0 997 names ++ str "..." ∧
  Z.of_nat (length (absentFieldValue names)) = 1000.
Proof.
  intros H. unfold absentFieldValue, substring0.
  destruct (Z.ltb_spec 1000 (Z.of_nat (length names))); [|lia].
  split; [done|]. rewrite length_app, length_take.
  change (length (str "...")) with 3%nat. lia.
Qed.

Lemma absentFieldValue_budget names :
  Z.of_nat (length (absentFieldValue names)) ≤ 1000.
Proof.
  destruct (decide (Z.of_nat (length names) ≤ 1000)) as [H|H].
  - by rewrite absentFieldValue_short.
  - destruct (absentFieldValue_long names) as [_ ->]; lia.
Qed.

Lemma report_last_field toFixed1 todayDate time present absent all :
  last (fields (report toFixed1 todayDate time present absent all)) =
    Some (if bool_decide (absent = [])
          then mkField "🎉 Perfect Attendance!"
                 (str "All students have submitted their goals today!") false
          else mkField absentStudentsField
                 (absentFieldValue (absentNames absent)) false).
Proof.
  unfold report. cbn [fields]. rewrite last_snoc. f_equal.
  destruct absent as [|s absent]; [done|].
  rewrite bool_decide_eq_false_2 by done.
  destruct (Z.ltb_spec 0 (Z.of_nat (length (s :: absent)))) as [_|H]; [done|].
  simpl in H. lia.
Qed.

Lemma report_fields toFixed1 todayDate time present absent all :
  f_name <$> fields (report toFixed1 todayDate time present absent all) =
    [ "✅ Present"; "❌ Absent"; "📈 Attendance Rate";
      if bool_decide (absent = []) then "🎉 Perfect Attendance!"
      else absentStudentsField ].
Proof.
  unfold report. cbn [fields]. rewrite fmap_app. cbn [fmap list_fmap app].
  do 4 f_equal.
  destruct absent as [|s absent]; [done|].
  rewrite bool_decide_eq_false_2 by done.
  destruct (Z.ltb_spec 0 (Z.of_nat (length (s :: absent)))) as [_|H]; [done|].
  simpl in H. lia.
Qed.

(** A hundred and one absent students of ten letters each: 1210 code units
    joined, 1000 posted, the last three of them dots. *)
Example long_absent_list_truncated :
  let names := join (replicate 101 (str "Abcdefghij")) in
  length names = 1210%nat ∧
  length (absentFieldValue names) = 1000%nat ∧
  drop 997 (absentFieldValue names) = str "...".
Proof. vm_compute. done. Qed.

End GoalProps.

(** ** The reflection reporter: counts only *)

Module ReflectionProps.
Import Report ReflectionReport ReflectionSpec.

Lemma main_ignores_names toFixed1 text_ge rename w :
  main toFixed1 text_ge (with_names rename w) = main toFixed1 text_ge w.
Proof.
  unfold main, with_names; cbn [users_snapshot now tz submissions_snapshot
    webhook report_time error_time].
  destruct (users_snapshot w) as [e|snapshot]; [done|].
  unfold getAllStudents. by rewrite !length_fmap.
Qed.

Lemma report_field_names toFixed1 text_ge todayDate time presentCount totalCount :
  f_name <$> fields (report toFixed1 text_ge todayDate time presentCount totalCount)
    ⊆ reportFieldNames.
Proof.
  unfold report, reportFieldNames. cbn [fields]. rewrite fmap_app.
  cbn [fmap list_fmap app].
  destruct (presentCount =? totalCount);
    [|destruct (text_ge _ 90); [|destruct (text_ge _ 75);
       [|destruct (text_ge _ 50)]]];
    cbn [f_name]; intros x Hx; set_solver.
Qed.

Lemma posted_field_names toFixed1 text_ge w payload embed :
  payload ∈ posts (main toFixed1 text_ge w) → embed ∈ payload →
  f_name <$> fields embed ⊆ reportFieldNames.
Proof.
  assert (∀ sent r e,
    (∀ p, p ∈ sent → ∀ em, em ∈ p → f_name <$> fields em ⊆ reportFieldNames) →
    ∀ p, p ∈ posts (onFailure w sent r e) → ∀ em, em ∈ p →
         f_name <$> fields em ⊆ reportFieldNames) as Hfail.
  { intros sent r e Hsent p Hp em Hem.
    assert (p ∈ sent ++ [errorPayload "❌ Evening Report Failed"
       "An error occurred while generating the reflection attendance report."
       e (error_time w)]) as Hp'.
    { unfold onFailure, handleFailure in Hp.
      by destruct (sendDiscordNotification r). }
    apply elem_of_app in Hp' as [Hp'|Hp']; [by eapply Hsent|].
    apply list_elem_of_singleton in Hp' as ->.
    apply list_elem_of_singleton in Hem as ->.
    unfold reportFieldNames. cbn. set_solver. }
  unfold main.
  destruct (users_snapshot w) as [e|snapshot].
  { intros Hp Hem. eapply Hfail; [|exact Hp|exact Hem].
    intros p Hp'. by apply elem_of_nil in Hp'. }
  case_bool_decide; [intros Hp; by apply elem_of_nil in Hp|].
  destruct (getStudentsWithReflectionsToday _ _ _) as [e|ids].
  { intros Hp Hem. eapply Hfail; [|exact Hp|exact Hem].
    intros p Hp'. by apply elem_of_nil in Hp'. }
  assert (∀ p, p ∈ [[report toFixed1 text_ge (getTodayDateIST (now w))
                       (report_time w) (Z.of_nat (size ids))
                       (Z.of_nat (length (getAllStudents snapshot)))]] →
          ∀ em, em ∈ p → f_name <$> fields em ⊆ reportFieldNames) as Hrep.
  { intros p ->%list_elem_of_singleton em ->%list_elem_of_singleton.
    apply report_field_names. }
  destruct (sendDiscordNotification (webhook w 0)) as [e|[]].
  - intros Hp Hem. eapply Hfail; [exact Hrep|exact Hp|exact Hem].
  - intros Hp Hem. by eapply Hrep.
Qed.

End ReflectionProps.

(** ** Properties of whole runs *)

Module RunProps.
Import Report RunSpec.

Section Runs.

Variable toFixed1 : Z → Z → jsstring.
Variable text_ge : jsstring → Z → bool.

(** C6. In a run of the goal reporter that builds its report, the last
    field of the posted report is the absent-students field when somebody is
    absent: its value is the sorted names joined by a comma and a space when
    that text has at most 1000 code units, and otherwise the first 997 code
    units of it followed by three dots, so at most 1000 code units either
    way. When nobody is absent the last field is the perfect-attendance
    field and no field lists names. No run of the reflection reporter posts
    a field of absent names, and its run does not depend on any name. *)
Theorem absent_names_field
    (w : World) (allStudents : list GoalReport.Student) (ids : gset jsstring)
    (Hbuilt : GoalSpec.reportBuilt w allStudents ids) :
  let absentStudents := filter (λ s, GoalReport.id s ∉ ids) allStudents in
  let names := GoalReport.absentNames absentStudents in
  (∃ r rest,
     posts (GoalReport.main toFixed1 w) = [r] :: rest ∧
     (absentStudents ≠ [] →
        ∃ value,
          last (fields r) = Some (mkField GoalSpec.absentStudentsField value false) ∧
          names = join (GoalReport.sort (GoalReport.name <$> absentStudents)) ∧
          (Z.of_nat (length names) ≤ 1000 → value = names) ∧
          (1000 < Z.of_nat (length names) →
             value = substring0 997 names ++ str "...") ∧
          Z.of_nat (length value) ≤ 1000) ∧
     (absentStudents = [] →
        last (fields r) =
          Some (mkField "🎉 Perfect Attendance!"
                  (str "All students have submitted their goals today!") false) ∧
        GoalSpec.absentStudentsField ∉ f_name <$> fields r)) ∧
  (∀ w' rename,
     ReflectionReport.main toFixed1 text_ge (ReflectionSpec.with_names rename w')
       = ReflectionReport.main toFixed1 text_ge w' ∧
     ∀ payload embed,
       payload ∈ posts (ReflectionReport.main toFixed1 text_ge w') →
       embed ∈ payload →
       GoalSpec.absentStudentsField ∉ f_name <$> fields embed).
Proof.
  intros absentStudents names. split.
  - destruct (GoalProps.main_posts_report toFixed1 w allStudents ids Hbuilt)
      as [rest Hposts].
    eexists _, rest. split; [exact Hposts|]. fold absentStudents. split.
    + intros Hne. exists (GoalReport.absentFieldValue names).
      rewrite GoalProps.report_last_field.
      rewrite bool_decide_eq_false_2 by done.
      split; [done|]. split; [done|]. split; [|split].
      * apply GoalProps.absentFieldValue_short.
      * intros H. by destruct (GoalProps.absentFieldValue_long names H).
      * apply GoalProps.absentFieldValue_budget.
    + intros He. rewrite GoalProps.report_last_field, GoalProps.report_fields.
      rewrite He, bool_decide_eq_true_2 by done. split; [done|].
      unfold GoalSpec.absentStudentsField.
      rewrite !elem_of_cons, elem_of_nil. intros [H|[H|[H|[H|H]]]]; done.
  - intros w' rename. split; [apply ReflectionProps.main_ignores_names|].
    intros payload embed Hp He Hin.
    apply (ReflectionProps.posted_field_names _ _ _ _ _ Hp He) in Hin.
    unfold GoalSpec.absentStudentsField, ReflectionSpec.reportFieldNames in Hin.
    rewrite !elem_of_cons, elem_of_nil in Hin.
    repeat (destruct Hin as [Hin|Hin]; [done|]). done.
Qed.

(** *** Failures *)

Lemma handleFailure_handled ttl descr w sent error :
  Forall (λ payload, ∀ embed, embed ∈ payload → title embed ≠ ttl) sent →
  failureHandled ttl descr w error
    (handleFailure ttl descr (error_time w) sent (webhook w (length sent)) error).
Proof.
  intros Hsent. unfold failureHandled, handleFailure.
  destruct (sendDiscordNotification (webhook w (length sent))) as [ne|[]] eqn:Hr;
    (split; [done|]); exists sent; by rewrite Hr.
Qed.

Lemma goal_failure_handled w error :
  stepFails w error →
  failureHandled "❌ Daily Report Failed"
    "An error occurred while generating the daily goal attendance report."
    w error (GoalReport.main toFixed1 w).
Proof.
  intros Hfail. unfold GoalReport.main, GoalReport.onFailure.
  destruct Hfail as [e Hu|snapshot e Hu Hne Hs|snapshot ids e Hu Hne Hs Hp];
    rewrite Hu.
  - by apply (handleFailure_handled _ _ w []).
  - case_bool_decide as Hlen.
    { unfold GoalReport.getAllStudents in Hlen. rewrite length_fmap in Hlen.
      by apply nil_length_inv in Hlen. }
    unfold GoalReport.getStudentsWithGoalsToday. rewrite Hs.
    by apply (handleFailure_handled _ _ w []).
  - case_bool_decide as Hlen.
    { unfold GoalReport.getAllStudents in Hlen. rewrite length_fmap in Hlen.
      by apply nil_length_inv in Hlen. }
    unfold GoalReport.getStudentsWithGoalsToday. rewrite Hs.
    destruct (GoalReport.separate _ _) as [present absent]. rewrite Hp.
    apply (handleFailure_handled _ _ w [_]).
    apply Forall_singleton. intros em ->%list_elem_of_singleton. done.
Qed.

Lemma reflection_failure_handled w error :
  stepFails w error →
  failureHandled "❌ Evening Report Failed"
    "An error occurred while generating the reflection attendance report."
    w error (ReflectionReport.main toFixed1 text_ge w).
Proof.
  intros Hfail. unfold ReflectionReport.main, ReflectionReport.onFailure.
  destruct Hfail as [e Hu|snapshot e Hu Hne Hs|snapshot ids e Hu Hne Hs Hp];
    rewrite Hu.
  - by apply (handleFailure_handled _ _ w []).
  - case_bool_decide as Hlen.
    { unfold ReflectionReport.getAllStudents in Hlen. rewrite length_fmap in Hlen.
      by apply nil_length_inv in Hlen. }
    unfold ReflectionReport.getStudentsWithReflectionsToday. rewrite Hs.
    by apply (handleFailure_handled _ _ w []).
  - case_bool_decide as Hlen.
    { unfold ReflectionReport.getAllStudents in Hlen. rewrite length_fmap in Hlen.
      by apply nil_length_inv in Hlen. }
    unfold ReflectionReport.getStudentsWithReflectionsToday. rewrite Hs, Hp.
    apply (handleFailure_handled _ _ w [_]).
    apply Forall_singleton. intros em ->%list_elem_of_singleton. done.
Qed.

(** A run in which no step fails ends with status 0 and no error line. *)
Lemma goal_no_failure w :
  (∀ error, ¬ stepFails w error) →
  exit_code (GoalReport.main toFixed1 w) = 0 ∧
  stderr (GoalReport.main toFixed1 w) = [].
Proof.
  intros Hok. unfold GoalReport.main.
  destruct (users_snapshot w) as [e|snapshot] eqn:Hu.
  { destruct (Hok e). by constructor. }
  case_bool_decide as Hlen; [done|].
  assert (snapshot ≠ []) as Hne by (by intros ->).
  unfold GoalReport.getStudentsWithGoalsToday.
  destruct (submittedToday _ _ _) as [e|ids] eqn:Hs.
  { destruct (Hok e). by eapply fetch_submissions_fails. }
  destruct (GoalReport.separate _ _) as [present absent].
  destruct (sendDiscordNotification (webhook w 0)) as [e|[]] eqn:Hp; [|done].
  destruct (Hok e). by eapply post_webhook_fails.
Qed.

Lemma reflection_no_failure w :
  (∀ error, ¬ stepFails w error) →
  exit_code (ReflectionReport.main toFixed1 text_ge w) = 0 ∧
  stderr (ReflectionReport.main toFixed1 text_ge w) = [].
Proof.
  intros Hok. unfold ReflectionReport.main.
  destruct (users_snapshot w) as [e|snapshot] eqn:Hu.
  { destruct (Hok e). by constructor. }
  case_bool_decide as Hlen; [done|].
  assert (snapshot ≠ []) as Hne by (by intros ->).
  unfold ReflectionReport.getStudentsWithReflectionsToday.
  destruct (submittedToday _ _ _) as [e|ids] eqn:Hs.
  { destruct (Hok e). by eapply fetch_submissions_fails. }
  destruct (sendDiscordNotification (webhook w 0)) as [e|[]] eqn:Hp; [|done].
  destruct (Hok e). by eapply post_webhook_fails.
Qed.


(** *** No students *)

Lemma goal_report_ext (toFixed1' : Z → Z → jsstring) todayDate time
    (present absent all : list GoalReport.Student) :
  (∀ p t, t ≠ 0 → toFixed1 p t = toFixed1' p t) →
  all ≠ [] →
  GoalReport.report toFixed1 todayDate time present absent all
    = GoalReport.report toFixed1' todayDate time present absent all.
Proof.
  intros Hext Hne. unfold GoalReport.report. cbn zeta.
  rewrite Hext; [done|]. destruct all; [done | simpl; lia].
Qed.

Lemma goal_main_ext (toFixed1' : Z → Z → jsstring) w :
  (∀ p t, t ≠ 0 → toFixed1 p t = toFixed1' p t) →
  GoalReport.main toFixed1 w = GoalReport.main toFixed1' w.
Proof.
  intros Hext. unfold GoalReport.main.
  destruct (users_snapshot w) as [e|snapshot]; [done|].
  case_bool_decide as Hlen; [done|].
  destruct (GoalReport.getStudentsWithGoalsToday _ _ _) as [e|ids]; [done|].
  destruct (GoalReport.separate _ _) as [present absent].
  rewrite (goal_report_ext toFixed1'); [done | done |].
  intros Hnil. by rewrite Hnil in Hlen.
Qed.

Lemma reflection_main_ext (toFixed1' : Z → Z → jsstring) w :
  (∀ p t, t ≠ 0 → toFixed1 p t = toFixed1' p t) →
  ReflectionReport.main toFixed1 text_ge w
    = ReflectionReport.main toFixed1' text_ge w.
Proof.
  intros Hext. unfold ReflectionReport.main.
  destruct (users_snapshot w) as [e|snapshot]; [done|].
  case_bool_decide as Hlen; [done|].
  destruct (ReflectionReport.getStudentsWithReflectionsToday _ _ _) as [e|ids];
    [done|].
  unfold ReflectionReport.report. cbn zeta.
  rewrite Hext; [done|].
  destruct (ReflectionReport.getAllStudents snapshot); [done | simpl; lia].
Qed.

(** C10. A run that fetches an empty list of students ends with status 0
    and has posted nothing, in either reporter; and no run depends on what
    the percentage computation would give for a total of zero, so that
    computation is never carried out with a zero divisor. *)
Theorem no_students_no_post_no_division (w : World)
    (toFixed1' : Z → Z → jsstring) :
  (users_snapshot w = inr [] →
     GoalReport.main toFixed1 w = mkRun 0 [] [] ∧
     ReflectionReport.main toFixed1 text_ge w = mkRun 0 [] []) ∧
  ((∀ presentCount totalCount, totalCount ≠ 0 →
      toFixed1 presentCount totalCount = toFixed1' presentCount totalCount) →
     GoalReport.main toFixed1 w = GoalReport.main toFixed1' w ∧
     ReflectionReport.main toFixed1 text_ge w
       = ReflectionReport.main toFixed1' text_ge w).
Proof.
  split.
  - intros Hu. unfold GoalReport.main, ReflectionReport.main. by rewrite Hu.
  - intros Hext. split; [by apply goal_main_ext | by apply reflection_main_ext].
Qed.

End Runs.

(** *** Sample runs *)

Lemma sample_world_built :
  GoalSpec.reportBuilt sample_world GoalSpec.sample_students {[ str "s2" ]}.
Proof.
  exists sample_users. split; [done|]. split; [done|]. split; [done|].
  vm_compute; reflexivity.
Qed.

Lemma absent_names_field_witness :
  (∃ r rest,
     posts (GoalReport.main sample_toFixed1 sample_world) = [r] :: rest ∧
     last (fields r) =
       Some (mkField GoalSpec.absentStudentsField (str "Ravi, Zoya") false)) ∧
  ∀ rename,
    ReflectionReport.main sample_toFixed1 sample_text_ge
      (ReflectionSpec.with_names rename sample_world)
    = ReflectionReport.main sample_toFixed1 sample_text_ge sample_world.
Proof.
  destruct (absent_names_field sample_toFixed1 sample_text_ge sample_world
              GoalSpec.sample_students {[ str "s2" ]} sample_world_built)
    as [(r & rest & Hposts & Habsent & _) Hrefl].
  split.
  - exists r, rest. split; [exact Hposts|].
    destruct Habsent as (value & Hlast & Hnames & Hshort & _ & _).
    { vm_compute. discriminate. }
    rewrite Hlast, Hshort; [|vm_compute; discriminate].
    vm_compute; reflexivity.
  - intros rename. apply (Hrefl sample_world rename).
Defined.


Example failing_world_run :
  GoalReport.main sample_toFixed1 failing_world =
    mkRun 1
      [ errorPayload "❌ Daily Report Failed"
          "An error occurred while generating the daily goal attendance report."
          (mkError (str "quota exceeded")) 1762833002000 ]
      [ LogReportError (mkError (str "quota exceeded"));
        LogNotifyFailed (str "Discord API error: 500") ].
Proof. vm_compute; reflexivity. Qed.

Lemma no_students_no_post_no_division_witness :
  (GoalReport.main sample_toFixed1 empty_world = mkRun 0 [] [] ∧
   ReflectionReport.main sample_toFixed1 sample_text_ge empty_world = mkRun 0 [] []) ∧
  (GoalReport.main sample_toFixed1 sample_world
     = GoalReport.main (λ p t, if t =? 0 then [] else sample_toFixed1 p t)
         sample_world ∧
   ReflectionReport.main sample_toFixed1 sample_text_ge sample_world
     = ReflectionReport.main (λ p t, if t =? 0 then [] else sample_toFixed1 p t)
         sample_text_ge sample_world).
Proof.
  split.
  - apply (no_students_no_post_no_division sample_toFixed1 sample_text_ge
             empty_world sample_toFixed1). reflexivity.
  - apply (no_students_no_post_no_division sample_toFixed1 sample_text_ge
             sample_world (λ p t, if t =? 0 then [] else sample_toFixed1 p t)).
    intros p t Ht. by destruct (Z.eqb_spec t 0).
Defined.

(** *** A goal submitted early in the morning *)

(** C4, at the run of 2025-11-11 09:20 (India): today is 2025-11-11 there,
    and the goal submitted at 05:00 (India) carries the same calendar day;
    yet the range asked for starts at 00:00 UTC, that is 05:30 in India, and
    ends at 23:59:59 UTC, so the submission is outside it, the set of
    submitting students is empty (in the reflection script too, which asks
    for the same range) and the posted report lists the student as absent. *)
Theorem early_morning_goal_not_counted :
  getTodayDateIST (now early_world) = str "2025-11-11" ∧
  getTodayDateIST (created_at early_goal) = str "2025-11-11" ∧
  CalendarSpec.today (created_at early_goal)
    = CalendarSpec.today (now early_world) ∧
  todayRange 0 (str "2025-11-11") = Some (1762819200000, 1762905599000) ∧
  in_range (1762819200000, 1762905599000) (created_at early_goal) = false ∧
  GoalReport.getStudentsWithGoalsToday 0 (inr [ early_goal ]) (str "2025-11-11")
    = inr ∅ ∧
  ReflectionReport.getStudentsWithReflectionsToday 0 (inr [ early_goal ])
      (str "2025-11-11")
    = inr ∅ ∧
  ∃ r, posts (GoalReport.main sample_toFixed1 early_world) = [[r]] ∧
       last (fields r) =
         Some (mkField GoalSpec.absentStudentsField (str "Zoya") false).
Proof.
  split_and!; try (vm_compute; reflexivity).
  eexists. split; vm_compute; reflexivity.
Qed.

(** The last second of the day is left out as well: a goal stamped
    23:59:59.500 UTC on 2025-11-11 is not in the range of that date. *)
Example last_second_not_counted :
  in_range (1762819200000, 1762905599000) 1762905599500 = false ∧
  1762905599500 / msPerDay = 1762819200000 / msPerDay.
Proof. split; vm_compute; reflexivity. Qed.

End RunProps.

(** ** The notification banner *)

Module NotificationProps.
Import MentorCampusTab NotificationSpec.

Lemma shown_iff_pending (m : jsstring) (d : Z) :
  m ≠ [] ↔ is_Some (if decide (m = []) then None else Some d).
Proof.
  case_decide as Hm.
  - split; [done | by intros [? ?]].
  - split; [by eexists | done].
Qed.

Lemma wf_initial t : wf (initial t).
Proof. split; cbn; try done; split; try done; by intros [? ?]. Qed.

Lemma wf_setSuccessMessage v s : wf s → wf (setSuccessMessage v s).
Proof.
  intros [H1 H2 H3 H4]. unfold setSuccessMessage.
  case_decide as Hv; [by split|]. split; cbn; try done.
  - intros d. case_decide; [done|]. intros [= <-]. lia.
  - apply shown_iff_pending.
Qed.

Lemma wf_setErrorMessage v s : wf s → wf (setErrorMessage v s).
Proof.
  intros [H1 H2 H3 H4]. unfold setErrorMessage.
  case_decide as Hv; [by split|]. split; cbn; try done.
  - intros d. case_decide; [done|]. intros [= <-]. lia.
  - apply shown_iff_pending.
Qed.

Lemma wf_setProcessing p s : wf s → wf (setProcessing p s).
Proof. by intros [H1 H2 H3 H4]. Qed.

(** What a due timeout leaves behind. *)
Lemma fireSuccess_fields s :
  successMessage (fireSuccess s) = [] ∧ successTimer (fireSuccess s) = None ∧
  errorMessage (fireSuccess s) = errorMessage s ∧
  errorTimer (fireSuccess s) = errorTimer s ∧
  processing (fireSuccess s) = processing s ∧ clock (fireSuccess s) = clock s.
Proof.
  unfold fireSuccess, setSuccessMessage. cbn.
  case_decide as Hv; cbn; [by rewrite <- Hv | done].
Qed.

Lemma fireError_fields s :
  errorMessage (fireError s) = [] ∧ errorTimer (fireError s) = None ∧
  successMessage (fireError s) = successMessage s ∧
  successTimer (fireError s) = successTimer s ∧
  processing (fireError s) = processing s ∧ clock (fireError s) = clock s.
Proof.
  unfold fireError, setErrorMessage. cbn.
  case_decide as Hv; cbn; [by rewrite <- Hv | done].
Qed.

(** The success half and the error half of [elapse], each on its own. *)
Lemma elapse_success dt s :
  successMessage (elapse dt s) =
    (if due (successTimer s) (clock s + Z.of_N dt) then [] else successMessage s) ∧
  successTimer (elapse dt s) =
    (if due (successTimer s) (clock s + Z.of_N dt) then None else successTimer s).
Proof.
  unfold elapse. cbn.
  destruct (fireSuccess_fields s) as (Hm & Ht & Hem & Het & _ & _).
  destruct (due (successTimer s) _).
  - destruct (fireError_fields (fireSuccess s)) as (_ & _ & Hm' & Ht' & _ & _).
    destruct (due (errorTimer (fireSuccess s)) _); [by rewrite Hm', Ht' | done].
  - destruct (fireError_fields s) as (_ & _ & Hm' & Ht' & _ & _).
    by destruct (due (errorTimer s) _).
Qed.

Lemma elapse_error dt s :
  errorMessage (elapse dt s) =
    (if due (errorTimer s) (clock s + Z.of_N dt) then [] else errorMessage s) ∧
  errorTimer (elapse dt s) =
    (if due (errorTimer s) (clock s + Z.of_N dt) then None else errorTimer s).
Proof.
  unfold elapse. cbn.
  destruct (fireSuccess_fields s) as (_ & _ & Hem & Het & _ & _).
  assert (errorTimer (if due (successTimer s) (clock s + Z.of_N dt)
                      then fireSuccess s else s) = errorTimer s) as Ht
    by (by destruct (due (successTimer s) _)).
  assert (errorMessage (if due (successTimer s) (clock s + Z.of_N dt)
                        then fireSuccess s else s) = errorMessage s) as Hm
    by (by destruct (due (successTimer s) _)).
  rewrite Ht.
  destruct (fireError_fields (if due (successTimer s) (clock s + Z.of_N dt)
                              then fireSuccess s else s)) as (Hm' & Ht' & _).
  destruct (due (errorTimer s) _); [done | by rewrite Hm, Ht].
Qed.

Lemma clock_elapse dt s : clock (elapse dt s) = clock s + Z.of_N dt.
Proof. done. Qed.

Lemma wf_elapse dt s : wf s → wf (elapse dt s).
Proof.
  intros [H1 H2 H3 H4].
  destruct (elapse_success dt s) as [Hsm Hst].
  destruct (elapse_error dt s) as [Hem Het].
  split; rewrite ?clock_elapse, ?Hsm, ?Hst, ?Hem, ?Het.
  - intros d. destruct (successTimer s) as [d'|] eqn:Ht; cbn; [|done].
    destruct (Z.leb_spec d' (clock s + Z.of_N dt)); [done|].
    intros [= <-]. specialize (H1 _ eq_refl). lia.
  - destruct (due (successTimer s) _) eqn:Hdue; [|done].
    split; [done | by intros [? ?]].
  - intros d. destruct (errorTimer s) as [d'|] eqn:Ht; cbn; [|done].
    destruct (Z.leb_spec d' (clock s + Z.of_N dt)); [done|].
    intros [= <-]. specialize (H3 _ eq_refl). lia.
  - destruct (due (errorTimer s) _) eqn:Hdue; [|done].
    split; [done | by intros [? ?]].
Qed.

Lemma wf_step s e : wf s → wf (step s e).
Proof.
  destruct e; cbn; auto using wf_setSuccessMessage, wf_setErrorMessage,
    wf_setProcessing, wf_elapse.
Qed.

Lemma wf_run s events : wf s → wf (run s events).
Proof.
  revert s. induction events as [|e events IH]; intros s Hwf; [done|].
  apply IH. by apply wf_step.
Qed.

Lemma clock_step s e :
  clock (step s e) =
    clock s + match e with Elapse dt => Z.of_N dt | _ => 0 end.
Proof.
  destruct e as [m|m|p|dt]; cbn; [| | lia | done].
  - unfold setSuccessMessage. case_decide; cbn; lia.
  - unfold setErrorMessage. case_decide; cbn; lia.
Qed.

Lemma clock_run s events : clock (run s events) = clock s + elapsed events.
Proof.
  revert s. induction events as [|e events IH]; intros s.
  - cbn. lia.
  - change (run s (e :: events)) with (run (step s e) events).
    rewrite IH, clock_step.
    change (elapsed (e :: events))
      with (match e with Elapse dt => Z.of_N dt + elapsed events
                    | _ => elapsed events end).
    destruct e; lia.
Qed.



Lemma successClearsBy_step deadline s e :
  sets_success e = false →
  successClearsBy deadline s → successClearsBy deadline (step s e).
Proof.
  intros He Hs. destruct e as [m|m|p|dt]; [done| | |]; cbn.
  - unfold setErrorMessage. by case_decide.
  - done.
  - unfold successClearsBy.
    destruct (elapse_success dt s) as [-> ->]. rewrite clock_elapse.
    destruct Hs as [Hs|(d & Hd & Hlt)]; [left; by destruct (due _ _)|].
    rewrite Hd. cbn. destruct (Z.leb_spec d (clock s + Z.of_N dt)); [by left|].
    right. exists d. split; [done | lia].
Qed.


Lemma successClearsBy_run deadline s events :
  forallb (λ e, negb (sets_success e)) events = true →
  successClearsBy deadline s → successClearsBy deadline (run s events).
Proof.
  revert s. induction events as [|e events IH]; intros s Hev Hs; [done|].
  cbn in Hev. apply andb_prop in Hev as [He Hev].
  apply IH; [done|]. apply successClearsBy_step; [|done].
  by apply negb_true_iff.
Qed.


(** A message other than the one on display restarts the delay: the
    timeout that was pending is replaced, and the new message stays for the
    whole delay. *)
Lemma setSuccessMessage_restarts m s dt :
  m ≠ [] → m ≠ successMessage s →
  successTimer (setSuccessMessage m s) = Some (clock s + 3000) ∧
  (Z.of_N dt < 3000 → successMessage (elapse dt (setSuccessMessage m s)) = m).
Proof.
  intros Hm Hne.
  assert (setSuccessMessage m s =
            mkState m (errorMessage s) (processing s) (Some (clock s + 3000))
              (errorTimer s) (clock s)) as ->.
  { unfold setSuccessMessage. by rewrite !decide_False by done. }
  split; [done|]. intros Hdt.
  destruct (elapse_success dt
              (mkState m (errorMessage s) (processing s) (Some (clock s + 3000))
                 (errorTimer s) (clock s))) as [-> _]. cbn.
  destruct (Z.leb_spec (clock s + 3000) (clock s + Z.of_N dt)); [lia | done].
Qed.

Lemma setErrorMessage_restarts m s dt :
  m ≠ [] → m ≠ errorMessage s →
  errorTimer (setErrorMessage m s) = Some (clock s + 5000) ∧
  (Z.of_N dt < 5000 → errorMessage (elapse dt (setErrorMessage m s)) = m).
Proof.
  intros Hm Hne.
  assert (setErrorMessage m s =
            mkState (successMessage s) m (processing s) (successTimer s)
              (Some (clock s + 5000)) (clock s)) as ->.
  { unfold setErrorMessage. by rewrite !decide_False by done. }
  split; [done|]. intros Hdt.
  destruct (elapse_error dt
              (mkState (successMessage s) m (processing s) (successTimer s)
                 (Some (clock s + 5000)) (clock s))) as [-> _]. cbn.
  destruct (Z.leb_spec (clock s + 5000) (clock s + Z.of_N dt)); [lia | done].
Qed.



(** Starting an action clears both messages and both timeouts, so a
    message of either kind set afterwards finds no timeout pending. *)
Lemma actionStart_clears target s :
  wf s →
  successMessage (actionStart target s) = [] ∧
  errorMessage (actionStart target s) = [] ∧
  successTimer (actionStart target s) = None ∧
  errorTimer (actionStart target s) = None ∧
  processing (actionStart target s) = Some target.
Proof.
  intros [H1 H2 H3 H4].
  assert (∀ (m : jsstring) (t : option Z),
            (m ≠ [] ↔ is_Some t) → [] = m → t = None) as Hnone.
  { intros m [d|] Hiff <-; [|done]. by destruct (proj2 Hiff (mk_is_Some _ _ eq_refl)). }
  unfold actionStart, setSuccessMessage, setErrorMessage, setProcessing. cbn.
  destruct (decide ([] = errorMessage s)) as [He|He]; cbn;
    destruct (decide ([] = successMessage s)) as [Hs|Hs]; cbn;
    split_and!; eauto.
Qed.


(** The banner one second and three seconds after a success. *)
Example banner_after_success :
  successMessage (run (setSuccessMessage sample_message (initial 0)) [Elapse 1000])
    = sample_message ∧
  successMessage (run (setSuccessMessage sample_message (initial 0)) [Elapse 3000])
    = [].
Proof. split; vm_compute; reflexivity. Qed.

End NotificationProps.

(** * Further properties *)

(** ** Dates *)

Module DateProps.
Import Report CalendarSpec CalendarProps.

Lemma getTodayDateIST_same_day a b :
  today a = today b → getTodayDateIST a = getTodayDateIST b.
Proof.
  intros H. unfold getTodayDateIST, getUTCFullYear, getUTCMonth, getUTCDate.
  cbv zeta. fold (today a) (today b). by rewrite H.
Qed.

Lemma new_Date_today now tz :
  1000 ≤ getUTCFullYear (now + istOffset) ≤ 9999 →
  new_Date tz (getTodayDateIST now) = Some (today now * msPerDay).
Proof.
  intros Hyear. pose proof (todayRange_today now tz Hyear) as Hr.
  unfold todayRange in Hr.
  destruct (new_Date tz (getTodayDateIST now)) as [start|]; [|done].
  cbn [mbind option_bind] in Hr.
  destruct (new_Date tz (getTodayDateIST now ++ str "T23:59:59")); [|done].
  cbn [mbind option_bind] in Hr. injection Hr as Hs _. by rewrite Hs.
Qed.

(** In a year written with four digits the date text has ten code units
    and reads back, as a date, as midnight UTC of the calendar day the
    instant falls on in India, whatever the time zone of the machine. *)
Theorem today_text_reads_back (now tz : Z)
    (Hyear : 1000 ≤ getUTCFullYear (now + istOffset) ≤ 9999) :
  length (getTodayDateIST now) = 10%nat ∧
  new_Date tz (getTodayDateIST now) = Some (today now * msPerDay) ∧
  today now * msPerDay ≤ now + istOffset < (today now + 1) * msPerDay.
Proof.
  split; [|split; [by apply new_Date_today|]].
  - destruct (civil_from_days_inverse (today now))
      as (y & m & d & Hc & Hm & Hd & _).
    rewrite (getTodayDateIST_text now y m d); [done|done| |done|done].
    unfold getUTCFullYear in Hyear. fold (today now) in Hyear.
    by rewrite Hc in Hyear.
  - unfold today, msPerDay. Z.div_mod_to_equations; lia.
Qed.

Lemma today_text_reads_back_witness :
  length (getTodayDateIST 1762833000000) = 10%nat ∧
  new_Date 330 (getTodayDateIST 1762833000000) = Some (today 1762833000000 * msPerDay) ∧
  today 1762833000000 * msPerDay ≤ 1762833000000 + istOffset
    < (today 1762833000000 + 1) * msPerDay.
Proof.
  apply (today_text_reads_back 1762833000000 330). vm_compute. split; discriminate.
Defined.

(** Two instants of four-digit years get the same date text exactly when
    they fall on the same calendar day in India: the text changes at
    midnight there and nowhere else. *)
Theorem date_text_changes_at_indian_midnight (a b : Z)
    (Ha : 1000 ≤ getUTCFullYear (a + istOffset) ≤ 9999)
    (Hb : 1000 ≤ getUTCFullYear (b + istOffset) ≤ 9999) :
  getTodayDateIST a = getTodayDateIST b ↔
  (a + istOffset) / msPerDay = (b + istOffset) / msPerDay.
Proof.
  fold (today a) (today b). split; [|apply getTodayDateIST_same_day].
  intros Heq.
  pose proof (new_Date_today a 0 Ha) as H1.
  pose proof (new_Date_today b 0 Hb) as H2.
  rewrite Heq, H2 in H1. injection H1 as H1. unfold msPerDay in H1. lia.
Qed.

Lemma date_text_changes_at_indian_midnight_witness :
  getTodayDateIST 1762799399999 = getTodayDateIST 1762799400000 ↔
  (1762799399999 + istOffset) / msPerDay = (1762799400000 + istOffset) / msPerDay.
Proof.
  apply date_text_changes_at_indian_midnight; vm_compute; split; discriminate.
Defined.

(** At every run in a four-digit year the range asked for starts at
    midnight UTC of the day named by the date text and ends 23 h 59 min 59 s
    later, moved by the offset of the machine's time zone. Whatever that
    zone, a submission made in India on that calendar day before 05:30
    (before midnight UTC) is outside the range; and on a machine set to UTC
    the range is that UTC day without its last second. *)
Theorem range_of_every_run (now tz : Z)
    (Hyear : 1000 ≤ getUTCFullYear (now + istOffset) ≤ 9999) :
  let start := today now * msPerDay in
  let range := (start, start + 86399000 - tz * 60000) in
  todayRange tz (getTodayDateIST now) = Some range ∧
  (∀ t, today t = today now → t < start → in_range range t = false) ∧
  (tz = 0 →
   ∀ t, in_range range t = true ↔
        t / msPerDay = today now ∧ t mod msPerDay < 86399000).
Proof.
  intros start range. split; [by apply todayRange_today|]. split.
  - intros t _ Ht. unfold in_range, range. cbn [fst snd].
    destruct (Z.leb_spec start t); [lia | done].
  - intros -> t. unfold in_range, range, start, msPerDay. cbn [fst snd].
    rewrite andb_true_iff, Z.leb_le, Z.ltb_lt.
    Z.div_mod_to_equations; lia.
Qed.

Lemma range_of_every_run_witness :
  todayRange 0 (getTodayDateIST 1762833000000)
    = Some (today 1762833000000 * msPerDay,
            today 1762833000000 * msPerDay + 86399000 - 0 * 60000) ∧
  in_range (today 1762833000000 * msPerDay,
            today 1762833000000 * msPerDay + 86399000 - 0 * 60000)
    1762817400000 = false.
Proof.
  destruct (range_of_every_run 1762833000000 0) as (Hr & Hout & _).
  - vm_compute. split; discriminate.
  - split; [exact Hr|]. apply Hout; vm_compute; reflexivity.
Defined.

End DateProps.

(** ** Students, names and counts *)

Module StudentProps.
Import Report GoalSpec GoalProps.

Lemma or_else_nonempty v fallback :
  fallback ≠ [] → GoalReport.or_else v fallback ≠ [].
Proof.
  intros Hf. unfold GoalReport.or_else. destruct v as [s|]; [|done].
  by case_bool_decide.
Qed.

Lemma goal_names_nonempty snapshot :
  Forall (λ s, GoalReport.name s ≠ []) (GoalReport.getAllStudents snapshot).
Proof.
  unfold GoalReport.getAllStudents. apply Forall_fmap, Forall_true.
  intros d. cbn. by apply or_else_nonempty.
Qed.

Lemma join_nonempty (l : list jsstring) :
  l ≠ [] → Forall (λ n, n ≠ []) l → join l ≠ [].
Proof.
  destruct l as [|n l]; [done|]. intros _ Hall.
  apply Forall_cons in Hall as [Hn _].
  destruct n as [|c n]; [done|]. by destruct l.
Qed.

Lemma goal_student_ids snapshot :
  GoalReport.id <$> GoalReport.getAllStudents snapshot = doc_id <$> snapshot.
Proof.
  unfold GoalReport.getAllStudents. rewrite <- list_fmap_compose.
  by apply list_fmap_ext.
Qed.

(** Both scripts keep the identifiers in the order of the query, give every
    student the same name, and never an empty one: a user document without
    a name, or with an empty one, is called Unknown. So the field that lists
    the absent students is never posted with an empty text. *)
Theorem every_student_is_named (snapshot : list UserDoc) (ids : gset jsstring) :
  let students := GoalReport.getAllStudents snapshot in
  let absent := filter (λ s, GoalReport.id s ∉ ids) students in
  GoalReport.id <$> students = doc_id <$> snapshot ∧
  ReflectionReport.id <$> ReflectionReport.getAllStudents snapshot
    = doc_id <$> snapshot ∧
  ReflectionReport.name <$> ReflectionReport.getAllStudents snapshot
    = GoalReport.name <$> students ∧
  Forall (λ s, GoalReport.name s ≠ []) students ∧
  (∀ d, d ∈ snapshot → data_name d = None ∨ data_name d = Some [] →
        GoalReport.mkStudent (doc_id d) (str "Unknown")
          (GoalReport.or_else (data_email d) [])
          (GoalReport.or_else (data_campus d) [])
          (GoalReport.or_else (data_house d) []) ∈ students) ∧
  (absent ≠ [] →
   GoalReport.absentFieldValue (GoalReport.absentNames absent) ≠ []).
Proof.
  intros students absent. split_and!.
  - apply goal_student_ids.
  - unfold ReflectionReport.getAllStudents. rewrite <- list_fmap_compose.
    by apply list_fmap_ext.
  - unfold students, ReflectionReport.getAllStudents, GoalReport.getAllStudents.
    rewrite <- !list_fmap_compose. by apply list_fmap_ext.
  - apply goal_names_nonempty.
  - intros d Hd Hname. unfold students, GoalReport.getAllStudents.
    apply list_elem_of_fmap. exists d. split; [|done].
    f_equal. by destruct Hname as [-> | ->].
  - intros Hne.
    assert (GoalReport.absentNames absent ≠ []) as Hnames.
    { unfold GoalReport.absentNames, GoalReport.absentNameList.
      assert (Forall (λ n, n ≠ [])
                (GoalReport.sort (GoalReport.name <$> absent))) as Hall.
      { rewrite (sort_perm _). apply Forall_fmap.
        apply (Forall_impl (λ s, GoalReport.name s ≠ [])); [|done].
        unfold absent. apply Forall_forall. intros s Hs.
        apply list_elem_of_filter in Hs as [_ Hs].
        by apply (proj1 (Forall_forall _ _) (goal_names_nonempty snapshot)). }
      apply join_nonempty; [|done].
      intros Hnil. apply Hne.
      apply (f_equal length) in Hnil.
      rewrite (Permutation_length (sort_perm _)), length_fmap in Hnil.
      by apply nil_length_inv. }
    unfold GoalReport.absentFieldValue.
    destruct (1000 <? _); [|done].
    intros Hnil. apply (f_equal length) in Hnil.
    rewrite length_app in Hnil. simpl in Hnil. lia.
Qed.

Lemma present_students_size (ids : gset jsstring) (students : list GoalReport.Student) :
  NoDup (GoalReport.id <$> students) →
  length (filter (λ s, GoalReport.id s ∈ ids) students)
    = size (ids ∩ list_to_set (GoalReport.id <$> students)).
Proof.
  intros Hnd.
  assert (ids ∩ list_to_set (GoalReport.id <$> students)
          = list_to_set (GoalReport.id <$>
                           filter (λ s, GoalReport.id s ∈ ids) students)) as ->.
  { apply set_eq. intros x.
    rewrite elem_of_intersection, !elem_of_list_to_set, !list_elem_of_fmap.
    split.
    - intros [Hx (s & -> & Hs)]. exists s. split; [done|].
      by apply list_elem_of_filter.
    - intros (s & -> & Hs). apply list_elem_of_filter in Hs as [Hin Hs].
      split; [done | by exists s]. }
  rewrite size_list_to_set, length_fmap; [done|].
  eapply sublist_NoDup; [exact Hnd|].
  apply fmap_sublist, sublist_filter.
Qed.

Lemma counts_relation (snapshot : list UserDoc) (ids : gset jsstring)
    (Hnodup : NoDup (doc_id <$> snapshot)) :
  let students := GoalReport.getAllStudents snapshot in
  let presentStudents := (GoalReport.separate ids students).1 in
  let absentStudents := (GoalReport.separate ids students).2 in
  let strangers := size (ids ∖ list_to_set (doc_id <$> snapshot)) in
  let presentCount := Z.of_nat (size ids) in
  let totalCount := Z.of_nat (length (ReflectionReport.getAllStudents snapshot)) in
  presentCount = Z.of_nat (length presentStudents) + Z.of_nat strangers ∧
  totalCount - presentCount
    = Z.of_nat (length absentStudents) - Z.of_nat strangers.
Proof.
  intros students. rewrite separate_filter. cbn [fst snd].
  pose proof (goal_student_ids snapshot) as Hids.
  fold students in Hids.
  assert (NoDup (GoalReport.id <$> students)) as Hnd by (by rewrite Hids).
  pose proof (present_students_size ids students Hnd) as Hp.
  pose proof (filter_split_length (λ s, GoalReport.id s ∈ ids) students) as Hsum.
  rewrite Hids in Hp.
  assert (size ids = size (ids ∩ list_to_set (doc_id <$> snapshot))
                     + size (ids ∖ list_to_set (doc_id <$> snapshot)))%nat as Hsz.
  { rewrite <- size_union by set_solver. f_equal. apply set_eq. intros x.
    rewrite elem_of_union, elem_of_intersection, elem_of_difference.
    destruct (decide (x ∈ (list_to_set (doc_id <$> snapshot) : gset jsstring)));
      naive_solver. }
  assert (length (ReflectionReport.getAllStudents snapshot) = length students) as Hlen.
  { unfold students, ReflectionReport.getAllStudents, GoalReport.getAllStudents.
    by rewrite !length_fmap. }
  cbv zeta. rewrite Hlen. lia.
Qed.


(** The reflection script counts identifiers, the goal script counts
    students: on the same documents the reflection script's present count is
    the goal script's present count plus the number of submitting
    identifiers that belong to no student, and its absent count is smaller
    by as much. *)
Theorem reflection_counts_strangers (snapshot : list UserDoc) (ids : gset jsstring)
    (Hnodup : NoDup (doc_id <$> snapshot)) :
  let students := GoalReport.getAllStudents snapshot in
  let presentStudents := (GoalReport.separate ids students).1 in
  let absentStudents := (GoalReport.separate ids students).2 in
  let strangers := size (ids ∖ list_to_set (doc_id <$> snapshot)) in
  let presentCount := Z.of_nat (size ids) in
  let totalCount := Z.of_nat (length (ReflectionReport.getAllStudents snapshot)) in
  presentCount = Z.of_nat (length presentStudents) + Z.of_nat strangers ∧
  totalCount - presentCount
    = Z.of_nat (length absentStudents) - Z.of_nat strangers.
Proof. by apply counts_relation. Qed.

(** The reflection script announces a perfect day when its two counts
    are equal, that is, exactly when as many students are absent as
    identifiers of non-students have submitted: with nobody absent and no
    stranger, but also with one student absent and one mentor's reflection. *)
Theorem perfect_day_compares_counts
    (toFixed1 : Z → Z → jsstring) (text_ge : jsstring → Z → bool)
    (todayDate : jsstring) (time : Z)
    (snapshot : list UserDoc) (ids : gset jsstring)
    (Hnodup : NoDup (doc_id <$> snapshot)) :
  let absentStudents :=
    (GoalReport.separate ids (GoalReport.getAllStudents snapshot)).2 in
  let strangers := size (ids ∖ list_to_set (doc_id <$> snapshot)) in
  let r := ReflectionReport.report toFixed1 text_ge todayDate time
             (Z.of_nat (size ids))
             (Z.of_nat (length (ReflectionReport.getAllStudents snapshot))) in
  ∃ remark, last (fields r) = Some remark ∧
            (f_name remark = "🎉 Perfect Day!" ↔
             length absentStudents = strangers).
Proof.
  intros absentStudents strangers r.
  destruct (counts_relation snapshot ids Hnodup) as [_ Hrel].
  cbv zeta in Hrel. fold absentStudents strangers in Hrel.
  unfold r, ReflectionReport.report. cbv zeta. cbn [fields].
  rewrite last_snoc. eexists. split; [done|].
  destruct (Z.eqb_spec (Z.of_nat (size ids))
              (Z.of_nat (length (ReflectionReport.getAllStudents snapshot))))
    as [Heq|Hne].
  - cbn. split; [intros _; lia | done].
  - split; [|intros; lia].
    repeat (destruct (text_ge _ _); [done|]). done.
Qed.

Lemma perfect_day_compares_counts_witness :
  let ids : gset jsstring := {[ str "s2"; str "mentor7"; str "mentor8" ]} in
  ∃ remark,
    last (fields (ReflectionReport.report RunSpec.sample_toFixed1
                    RunSpec.sample_text_ge (str "2025-11-11") 0
                    (Z.of_nat (size ids))
                    (Z.of_nat (length (ReflectionReport.getAllStudents
                                         RunSpec.sample_users)))))
      = Some remark ∧
    f_name remark = "🎉 Perfect Day!".
Proof.
  intros ids.
  destruct (perfect_day_compares_counts RunSpec.sample_toFixed1
              RunSpec.sample_text_ge (str "2025-11-11") 0
              RunSpec.sample_users ids) as (remark & Hlast & Hiff).
  - apply (bool_decide_unpack (NoDup (doc_id <$> RunSpec.sample_users))).
    vm_compute. exact I.
  - exists remark. split; [exact Hlast|]. apply Hiff.
    vm_compute. reflexivity.
Defined.

(** The three sample students, and reflections by [s2] and by a mentor:
    two present for the reflection script, one for the goal script. *)
Lemma reflection_counts_strangers_witness :
  let ids : gset jsstring := {[ str "s2"; str "mentor7" ]} in
  let students := GoalReport.getAllStudents RunSpec.sample_users in
  Z.of_nat (size ids)
    = Z.of_nat (length (GoalReport.separate ids students).1)
      + Z.of_nat (size (ids ∖ list_to_set (doc_id <$> RunSpec.sample_users))) ∧
  Z.of_nat (length (ReflectionReport.getAllStudents RunSpec.sample_users))
    - Z.of_nat (size ids)
    = Z.of_nat (length (GoalReport.separate ids students).2)
      - Z.of_nat (size (ids ∖ list_to_set (doc_id <$> RunSpec.sample_users))).
Proof.
  apply (reflection_counts_strangers RunSpec.sample_users
           {[ str "s2"; str "mentor7" ]}).
  apply (bool_decide_unpack (NoDup (doc_id <$> RunSpec.sample_users))).
  vm_compute. exact I.
Defined.

Example stranger_counted_present :
  let ids : gset jsstring := {[ str "s2"; str "mentor7" ]} in
  size ids = 2%nat ∧
  length (GoalReport.separate ids
            (GoalReport.getAllStudents RunSpec.sample_users)).1 = 1%nat.
Proof. vm_compute. done. Qed.

End StudentProps.

(** ** Whole runs, continued *)

Module RunExtras.
Import Report RunSpec ExtraSpec GoalSpec GoalProps RunProps.

Section Runs.

Variable toFixed1 : Z → Z → jsstring.
Variable text_ge : jsstring → Z → bool.
Variable JSON_parses : jsstring → bool.
Variable initializes : jsstring → bool.

(** *** The order of the documents *)

Lemma submittedToday_reordered tz (subs subs' : JsError + list Submission) todayDate :
  reordered subs subs' →
  submittedToday tz subs' todayDate = submittedToday tz subs todayDate.
Proof.
  intros Hre. unfold submittedToday.
  destruct (todayRange tz todayDate) as [range|]; [|done].
  destruct subs as [e|l], subs' as [e'|l']; try done; [by rewrite Hre|].
  f_equal. apply set_eq. intros x. rewrite !collect_ids_acc.
  cbn in Hre. split; (intros [?|(Hne & d & Hd & Hs)]; [by left|]);
    right; (split; [done|]); exists d; (split; [|done]).
  - by rewrite Hre.
  - by rewrite <- Hre.
Qed.

Lemma absentNames_reordered (l l' : list GoalReport.Student) :
  l ≡ₚ l' → GoalReport.absentNames l = GoalReport.absentNames l'.
Proof.
  intros Hp. unfold GoalReport.absentNames, GoalReport.absentNameList.
  f_equal. apply sort_unique; [|apply sort_sorted].
  by rewrite sort_perm, Hp.
Qed.

Lemma goal_report_reordered todayDate time
    (present present' absent absent' all all' : list GoalReport.Student) :
  present ≡ₚ present' → absent ≡ₚ absent' → all ≡ₚ all' →
  GoalReport.report toFixed1 todayDate time present absent all
    = GoalReport.report toFixed1 todayDate time present' absent' all'.
Proof.
  intros Hp Ha Hall. unfold GoalReport.report. cbv zeta.
  by rewrite (Permutation_length Hp), (Permutation_length Ha),
    (Permutation_length Hall), (absentNames_reordered _ _ Ha).
Qed.

(** The store promises no order for the documents a query returns, and
    none is needed: a run of either script that is handed the same user
    documents and the same submissions in another order ends with the same
    status and has posted the very same messages. *)
Theorem report_ignores_document_order (w : World)
    (users' : JsError + list UserDoc) (subs' : JsError + list Submission)
    (Husers : reordered (users_snapshot w) users')
    (Hsubs : reordered (submissions_snapshot w) subs') :
  GoalReport.main toFixed1 (with_documents users' subs' w)
    = GoalReport.main toFixed1 w ∧
  ReflectionReport.main toFixed1 text_ge (with_documents users' subs' w)
    = ReflectionReport.main toFixed1 text_ge w.
Proof.
  unfold GoalReport.main, ReflectionReport.main, with_documents,
    GoalReport.onFailure, ReflectionReport.onFailure,
    GoalReport.getStudentsWithGoalsToday,
    ReflectionReport.getStudentsWithReflectionsToday.
  cbn [now tz users_snapshot submissions_snapshot webhook report_time error_time].
  rewrite (submittedToday_reordered _ _ _ _ Hsubs).
  destruct (users_snapshot w) as [e|l], users' as [e'|l']; try done;
    [by rewrite Husers|].
  cbn in Husers.
  assert (GoalReport.getAllStudents l ≡ₚ GoalReport.getAllStudents l') as Hg
    by (unfold GoalReport.getAllStudents; by rewrite Husers).
  assert (length (ReflectionReport.getAllStudents l')
          = length (ReflectionReport.getAllStudents l)) as Hr.
  { unfold ReflectionReport.getAllStudents.
    by rewrite !length_fmap, (Permutation_length Husers). }
  split.
  - rewrite <- (Permutation_length Hg).
    case_bool_decide; [done|].
    destruct (submittedToday _ _ _) as [e|ids]; [done|].
    rewrite !separate_filter.
    rewrite (goal_report_reordered _ _
               (filter (λ s, GoalReport.id s ∈ ids) (GoalReport.getAllStudents l'))
               (filter (λ s, GoalReport.id s ∈ ids) (GoalReport.getAllStudents l))
               (filter (λ s, GoalReport.id s ∉ ids) (GoalReport.getAllStudents l'))
               (filter (λ s, GoalReport.id s ∉ ids) (GoalReport.getAllStudents l))
               (GoalReport.getAllStudents l') (GoalReport.getAllStudents l));
      [done | by rewrite Hg | by rewrite Hg | done].
  - by rewrite Hr.
Qed.

(** *** How a run can end *)

Lemma goal_main_ends w :
  ends_in_one_of w (GoalReport.main toFixed1 w) (is_goal_report toFixed1)
    (GoalReport.onFailure w).
Proof.
  unfold ends_in_one_of, GoalReport.main.
  destruct (users_snapshot w) as [e|snapshot] eqn:Hu.
  { right; right; left. by exists e. }
  case_bool_decide as Hlen; [by left|].
  unfold GoalReport.getStudentsWithGoalsToday.
  destruct (submittedToday _ _ _) as [e|ids] eqn:Hs.
  { right; right; left. by exists e. }
  destruct (GoalReport.separate _ _) as [present absent].
  destruct (sendDiscordNotification (webhook w 0)) as [e|[]] eqn:Hp.
  - right; right; right. eexists _, e.
    split; [by repeat eexists | done].
  - right; left. eexists. split; [by repeat eexists | done].
Qed.

Lemma reflection_main_ends w :
  ends_in_one_of w (ReflectionReport.main toFixed1 text_ge w)
    (is_reflection_report toFixed1 text_ge) (ReflectionReport.onFailure w).
Proof.
  unfold ends_in_one_of, ReflectionReport.main.
  destruct (users_snapshot w) as [e|snapshot] eqn:Hu.
  { right; right; left. by exists e. }
  case_bool_decide as Hlen; [by left|].
  unfold ReflectionReport.getStudentsWithReflectionsToday.
  destruct (submittedToday _ _ _) as [e|ids] eqn:Hs.
  { right; right; left. by exists e. }
  destruct (sendDiscordNotification (webhook w 0)) as [e|[]] eqn:Hp.
  - right; right; right. eexists _, e.
    split; [by repeat eexists | done].
  - right; left. eexists. split; [by repeat eexists | done].
Qed.

Lemma handleFailure_fields ttl descr time sent r e :
  exit_code (handleFailure ttl descr time sent r e) = 1 ∧
  posts (handleFailure ttl descr time sent r e)
    = sent ++ [errorPayload ttl descr e time].
Proof. unfold handleFailure. by destruct (sendDiscordNotification r). Qed.

Lemma goal_exit_zero w :
  exit_code (GoalReport.main toFixed1 w) = 0 ↔ ∀ e, ¬ stepFails w e.
Proof.
  split; [|by intros [? _]%(goal_no_failure toFixed1)].
  intros Hz e Hf.
  destruct (goal_failure_handled toFixed1 w e Hf) as [H1 _]. lia.
Qed.

Lemma reflection_exit_zero w :
  exit_code (ReflectionReport.main toFixed1 text_ge w) = 0 ↔ ∀ e, ¬ stepFails w e.
Proof.
  split; [|by intros [? _]%(reflection_no_failure toFixed1 text_ge)].
  intros Hz e Hf.
  destruct (reflection_failure_handled toFixed1 text_ge w e Hf) as [H1 _]. lia.
Qed.

Lemma ends_zero_or_one w run is_report ttl descr :
  ends_in_one_of w run is_report (handleFailure ttl descr (error_time w)) →
  exit_code run = 0 ∨ exit_code run = 1.
Proof.
  intros [->|[(r & _ & -> & _)|[(e & ->)|(r & e & _ & _ & ->)]]];
    [by left | by left | right | right];
    apply handleFailure_fields.
Qed.

Lemma start_cases (main : World → Run) env w :
  (configured JSON_parses initializes env ∧
   Script.start JSON_parses initializes main env w = main w) ∨
  (¬ configured JSON_parses initializes env ∧
   Script.start JSON_parses initializes main env w = mkRun 1 [] []).
Proof.
  unfold Script.start, configured.
  destruct (Script.is_set (Script.FIREBASE_SERVICE_ACCOUNT env)) eqn:H1; cbn;
    [|right; split; [by intros (? & _) | done]].
  destruct (Script.is_set (Script.DISCORD_WEBHOOK_URL env)) eqn:H2; cbn;
    [|right; split; [by intros (_ & ? & _) | done]].
  destruct (Script.FIREBASE_SERVICE_ACCOUNT env) as [text|] eqn:Hsa; [|done].
  cbn. destruct (JSON_parses text) eqn:Hp; cbn.
  - destruct (initializes text) eqn:Hi; cbn.
    + left. split; [|done]. split_and!; [done | done | by exists text].
    + right. split; [|done].
      intros (_ & _ & text' & [= <-] & _ & Hi'). congruence.
  - right. split; [|done].
    intros (_ & _ & text' & [= <-] & Hp' & _). congruence.
Qed.

(** The exit status of either script is 0 or 1, and it is 0 exactly when
    both environment variables are set, the service account parses, the
    client library initialises with it and no step of the run fails.
    Without that configuration nothing is posted. *)
Theorem exit_status_tells_success (env : Script.Env) (w : World) :
  let goal :=
    Script.start JSON_parses initializes (GoalReport.main toFixed1) env w in
  let reflection :=
    Script.start JSON_parses initializes
      (ReflectionReport.main toFixed1 text_ge) env w in
  (exit_code goal = 0 ↔
     configured JSON_parses initializes env ∧ ∀ e, ¬ stepFails w e) ∧
  (exit_code reflection = 0 ↔
     configured JSON_parses initializes env ∧ ∀ e, ¬ stepFails w e) ∧
  (exit_code goal = 0 ∨ exit_code goal = 1) ∧
  (exit_code reflection = 0 ∨ exit_code reflection = 1) ∧
  (¬ configured JSON_parses initializes env →
   posts goal = [] ∧ posts reflection = []).
Proof.
  intros goal reflection. subst goal reflection.
  destruct (start_cases (GoalReport.main toFixed1) env w) as [[Hc ->]|[Hc ->]];
    destruct (start_cases (ReflectionReport.main toFixed1 text_ge) env w)
      as [[Hc' ->]|[Hc' ->]]; try done.
  - split_and!.
    + rewrite goal_exit_zero. by split; [|intros [_ ?]].
    + rewrite reflection_exit_zero. by split; [|intros [_ ?]].
    + apply (ends_zero_or_one w _ _ _ _ (goal_main_ends w)).
    + apply (ends_zero_or_one w _ _ _ _ (reflection_main_ends w)).
    + done.
  - split_and!; cbn; try (by right); try done;
      (split; [done | by intros [? _]]).
Qed.

(** A run hands at most two messages to the webhook: a second one only
    after the report was rejected, and then the run ends with status 1.
    What the webhook would answer to a third request never matters. *)
Theorem at_most_two_posts (w : World) (hook : nat → Response)
    (H0 : hook 0%nat = webhook w 0%nat) (H1 : hook 1%nat = webhook w 1%nat) :
  let goal := GoalReport.main toFixed1 w in
  let reflection := ReflectionReport.main toFixed1 text_ge w in
  Forall (λ run,
            (length (posts run) ≤ 2)%nat ∧
            (exit_code run = 0 → (length (posts run) ≤ 1)%nat) ∧
            (length (posts run) = 2%nat →
               exit_code run = 1 ∧
               ∃ e, sendDiscordNotification (webhook w 0) = inl e))
         [goal; reflection] ∧
  GoalReport.main toFixed1 (with_webhook hook w) = goal ∧
  ReflectionReport.main toFixed1 text_ge (with_webhook hook w) = reflection.
Proof.
  intros goal reflection.
  assert (∀ run is_report ttl descr,
            ends_in_one_of w run is_report (handleFailure ttl descr (error_time w)) →
            (length (posts run) ≤ 2)%nat ∧
            (exit_code run = 0 → (length (posts run) ≤ 1)%nat) ∧
            (length (posts run) = 2%nat →
               exit_code run = 1 ∧
               ∃ e, sendDiscordNotification (webhook w 0) = inl e)) as Hends.
  { intros run is_report ttl descr
      [->|[(r & _ & -> & _)|[(e & ->)|(r & e & _ & Hp & ->)]]]; cbn.
    - split_and!; [lia | lia | done].
    - split_and!; [lia | lia | done].
    - destruct (handleFailure_fields ttl descr (error_time w) [] (webhook w 0) e)
        as [-> ->]. cbn. split_and!; [lia | lia | done].
    - destruct (handleFailure_fields ttl descr (error_time w) [[r]] (webhook w 1) e)
        as [-> ->]. cbn. split_and!; [lia | lia |]. intros _. split; [done|].
      by exists e. }
  split; [|split].
  - constructor; [|constructor; [|constructor]].
    + apply (Hends _ _ _ _ (goal_main_ends w)).
    + apply (Hends _ _ _ _ (reflection_main_ends w)).
  - unfold goal, GoalReport.main, GoalReport.onFailure, with_webhook.
    cbn [now tz users_snapshot submissions_snapshot webhook report_time error_time].
    by rewrite H0, H1.
  - unfold reflection, ReflectionReport.main, ReflectionReport.onFailure,
      with_webhook.
    cbn [now tz users_snapshot submissions_snapshot webhook report_time error_time].
    by rewrite H0, H1.
Qed.

(** In every message that either script hands to the webhook, the two
    fields whose text grows with the data, the names of the absent students
    and the text of an error, hold at most 1000 code units. *)
Theorem growing_fields_stay_within_1000 (w : World) (payload : Payload)
    (embed : Embed) (f : Field)
    (Hposted : payload ∈ posts (GoalReport.main toFixed1 w) ∨
               payload ∈ posts (ReflectionReport.main toFixed1 text_ge w))
    (Hembed : embed ∈ payload) (Hfield : f ∈ fields embed)
    (Hgrows : grows_with_data f) :
  Z.of_nat (length (f_value f)) ≤ 1000.
Proof.
  assert (∀ ttl descr e time, embed ∈ errorPayload ttl descr e time →
            Z.of_nat (length (f_value f)) ≤ 1000) as Herr.
  { intros ttl descr e time ->%list_elem_of_singleton.
    apply list_elem_of_singleton in Hfield as ->. cbn.
    unfold substring0. rewrite length_take. lia. }
  assert (is_goal_report toFixed1 embed → Z.of_nat (length (f_value f)) ≤ 1000)
    as Hgoal.
  { intros (d & t & p & a & all & ->). unfold GoalReport.report in Hfield.
    cbn [fields] in Hfield. destruct Hgrows as [Hn|Hn];
      rewrite !elem_of_app, !elem_of_cons, !elem_of_nil in Hfield;
      destruct Hfield as [[->|[->|[->|[]]]]|[Hf|[]]]; try done;
      destruct (0 <? _); subst f; try done.
    apply absentFieldValue_budget. }
  assert (is_reflection_report toFixed1 text_ge embed →
          Z.of_nat (length (f_value f)) ≤ 1000) as Hrefl.
  { intros (d & t & p & tot & ->).
    pose proof (ReflectionProps.report_field_names toFixed1 text_ge d t p tot
                  (f_name f)) as Hnames.
    assert (f_name f ∈ ReflectionSpec.reportFieldNames) as Hin.
    { apply Hnames. apply list_elem_of_fmap. by exists f. }
    destruct Hgrows as [Hn|Hn].
    - rewrite Hn in Hin. unfold absentStudentsField,
        ReflectionSpec.reportFieldNames in Hin.
      rewrite !elem_of_cons, elem_of_nil in Hin.
      repeat (destruct Hin as [Hin|Hin]; [done|]). done.
    - unfold ReflectionReport.report in Hfield. cbn [fields] in Hfield.
      rewrite !elem_of_app, !elem_of_cons, !elem_of_nil in Hfield.
      destruct Hfield as [[->|[->|[->|[]]]]|[Hf|[]]]; try done.
      subst f. destruct (p =? tot); [done|].
      repeat (destruct (text_ge _ _); [done|]). done. }
  assert (∀ run is_report ttl descr,
            ends_in_one_of w run is_report (handleFailure ttl descr (error_time w)) →
            (is_report embed → Z.of_nat (length (f_value f)) ≤ 1000) →
            payload ∈ posts run → Z.of_nat (length (f_value f)) ≤ 1000) as Hends.
  { intros run is_report ttl descr
      [->|[(r & Hr & -> & _)|[(e & ->)|(r & e & Hr & _ & ->)]]] Hrep; cbn.
    - by intros ?%elem_of_nil.
    - intros ->%list_elem_of_singleton.
      apply list_elem_of_singleton in Hembed as ->. auto.
    - destruct (handleFailure_fields ttl descr (error_time w) [] (webhook w 0) e)
        as [_ ->]. cbn. intros ->%list_elem_of_singleton. by eapply Herr.
    - destruct (handleFailure_fields ttl descr (error_time w) [[r]] (webhook w 1) e)
        as [_ ->]. cbn. rewrite !elem_of_cons, elem_of_nil.
      intros [->|[->|[]]]; [|by eapply Herr].
      apply list_elem_of_singleton in Hembed as ->. auto. }
  destruct Hposted as [Hp|Hp].
  - by apply (Hends _ _ _ _ (goal_main_ends w) Hgoal).
  - by apply (Hends _ _ _ _ (reflection_main_ends w) Hrefl).
Qed.

End Runs.

Lemma at_most_two_posts_witness :
  length (posts (GoalReport.main sample_toFixed1 rejecting_world)) = 2%nat ∧
  exit_code (GoalReport.main sample_toFixed1 rejecting_world) = 1 ∧
  GoalReport.main sample_toFixed1
    (with_webhook (λ k, match k with
                          | O | S O => StatusCode 500
                          | _ => StatusCode 204
                          end) rejecting_world)
    = GoalReport.main sample_toFixed1 rejecting_world.
Proof.
  destruct (at_most_two_posts sample_toFixed1 sample_text_ge rejecting_world
              (λ k, match k with
                          | O | S O => StatusCode 500
                          | _ => StatusCode 204
                          end) eq_refl eq_refl)
    as (Hall & Hgoal & _).
  apply Forall_cons in Hall as [(_ & _ & Htwo) _].
  assert (length (posts (GoalReport.main sample_toFixed1 rejecting_world)) = 2%nat)
    as Hlen by (vm_compute; reflexivity).
  split; [exact Hlen|]. split; [exact (proj1 (Htwo Hlen)) | exact Hgoal].
Defined.

Lemma growing_fields_stay_within_1000_witness :
  Z.of_nat (length (f_value
    (mkField "Error" (substring0 1000 (str "quota exceeded")) false))) ≤ 1000.
Proof.
  apply (growing_fields_stay_within_1000 sample_toFixed1 sample_text_ge
           failing_world
           (errorPayload "❌ Daily Report Failed"
              "An error occurred while generating the daily goal attendance report."
              (mkError (str "quota exceeded")) 1762833002000)
           (mkEmbed "❌ Daily Report Failed"
              (str "An error occurred while generating the daily goal attendance report.")
              16711680 1762833002000
              [ mkField "Error" (substring0 1000 (str "quota exceeded")) false ]
              "Campus Learning Dashboard - Error Report")).
  - left.
    assert (posts (GoalReport.main sample_toFixed1 failing_world)
            = [ errorPayload "❌ Daily Report Failed"
                  "An error occurred while generating the daily goal attendance report."
                  (mkError (str "quota exceeded")) 1762833002000 ]) as ->
      by (vm_compute; reflexivity).
    apply list_elem_of_singleton. reflexivity.
  - apply list_elem_of_singleton. reflexivity.
  - apply list_elem_of_singleton. reflexivity.
  - by right.
Defined.

Lemma report_ignores_document_order_witness :
  GoalReport.main sample_toFixed1
    (with_documents (inr (reverse sample_users)) (inr sample_goals) sample_world)
    = GoalReport.main sample_toFixed1 sample_world ∧
  ReflectionReport.main sample_toFixed1 sample_text_ge
    (with_documents (inr (reverse sample_users)) (inr sample_goals) sample_world)
    = ReflectionReport.main sample_toFixed1 sample_text_ge sample_world.
Proof.
  apply (report_ignores_document_order sample_toFixed1 sample_text_ge sample_world).
  - change (sample_users ≡ₚ reverse sample_users).
    by rewrite reverse_Permutation.
  - change (sample_goals ≡ₚ sample_goals). done.
Defined.

(** With both variables set and a service account the library takes, the
    sample run posts its report and ends with status 0. Without the webhook
    address, and with the service account [{}], which parses but which the
    library refuses, it ends with status 1 before anything is read or
    posted. *)
Example configured_and_unconfigured_start :
  let run :=
    Script.start sample_parses sample_initializes
      (GoalReport.main sample_toFixed1) in
  let hook := Some (str "https://discord.example/hook") in
  exit_code (run sample_env sample_world) = 0 ∧
  length (posts (run sample_env sample_world)) = 1%nat ∧
  run (Script.mkEnv (Some sample_account) None) sample_world = mkRun 1 [] [] ∧
  run (Script.mkEnv (Some sample_account) (Some [])) sample_world
    = mkRun 1 [] [] ∧
  sample_parses (str "{}") = true ∧
  run (Script.mkEnv (Some (str "{}")) hook) sample_world = mkRun 1 [] [].
Proof. vm_compute. done. Qed.

End RunExtras.

(** ** The banner and the approval handlers, continued *)

Module BannerProps.
Import MentorCampusTab ApprovalHandlers NotificationSpec NotificationProps ExtraSpec.

(** *** What each setter touches *)

Lemma setSuccessMessage_fields v s :
  successMessage (setSuccessMessage v s) = v ∧
  errorMessage (setSuccessMessage v s) = errorMessage s ∧
  errorTimer (setSuccessMessage v s) = errorTimer s ∧
  processing (setSuccessMessage v s) = processing s ∧
  clock (setSuccessMessage v s) = clock s.
Proof. unfold setSuccessMessage. by case_decide. Qed.

Lemma setErrorMessage_fields v s :
  errorMessage (setErrorMessage v s) = v ∧
  successMessage (setErrorMessage v s) = successMessage s ∧
  successTimer (setErrorMessage v s) = successTimer s ∧
  processing (setErrorMessage v s) = processing s ∧
  clock (setErrorMessage v s) = clock s.
Proof. unfold setErrorMessage. by case_decide. Qed.

Lemma elapse_processing dt s : processing (elapse dt s) = processing s.
Proof.
  unfold elapse. cbn.
  destruct (fireSuccess_fields s) as (_ & _ & _ & _ & Hp & _).
  destruct (due (successTimer s) _).
  - destruct (fireError_fields (fireSuccess s)) as (_ & _ & _ & _ & Hp' & _).
    destruct (due (errorTimer (fireSuccess s)) _); [by rewrite Hp', Hp | done].
  - destruct (fireError_fields s) as (_ & _ & _ & _ & Hp' & _).
    by destruct (due (errorTimer s) _).
Qed.

Lemma elapse_keeps_empty dt s :
  (successMessage s = [] → successMessage (elapse dt s) = []) ∧
  (errorMessage s = [] → errorMessage (elapse dt s) = []).
Proof.
  destruct (elapse_success dt s) as [-> _].
  destruct (elapse_error dt s) as [-> _].
  split; intros ->; by destruct (due _ _).
Qed.

(** *** The invariant of the banner *)

Lemma wf_handleApproval noun fallback target status o s :
  wf s → wf (handleApproval noun fallback target status o s).
Proof.
  intros Hwf. unfold handleApproval, reviewing, actionStart. cbv zeta.
  apply wf_setProcessing.
  assert (wf (elapse (review_ms o)
                (setSuccessMessage []
                   (setErrorMessage [] (setProcessing (Some target) s))))) as H1.
  { by apply wf_elapse, wf_setSuccessMessage, wf_setErrorMessage,
      wf_setProcessing. }
  destruct (review_throws o); [by apply wf_setErrorMessage|].
  assert (wf (elapse (refresh_ms o)
                (setSuccessMessage (successText noun status)
                   (elapse (review_ms o)
                      (setSuccessMessage []
                         (setErrorMessage [] (setProcessing (Some target) s)))))))
    as H2 by (by apply wf_elapse, wf_setSuccessMessage).
  destruct (refresh_throws o); [by apply wf_setErrorMessage | done].
Qed.

(** From the empty banner on, whatever is set and however time passes, and
    through every call of a handler: a timeout is pending exactly while its
    message is on display, it lies in the future, and it is due within the
    3 s of a success or the 5 s of an error. No timeout outlives its
    message. *)
Theorem timeouts_follow_messages (t : Z) (events events' : list Event)
    (target : jsstring) (status : ReviewStatus) (o : Outcome) :
  let s := run (initial t) events in
  wf s ∧
  wf (run (handleGoalApproval target status o s) events') ∧
  wf (run (handleReflectionApproval target status o s) events').
Proof.
  intros s.
  assert (wf s) as Hs by apply wf_run, wf_initial.
  split_and!; [done | |]; by apply wf_run, wf_handleApproval.
Qed.

(** *** A banner stays for its delay *)

Lemma success_stays deadline m s events :
  successMessage s = m → successTimer s = Some deadline →
  forallb (λ e, negb (sets_success e)) events = true →
  clock s + elapsed events < deadline →
  successMessage (run s events) = m.
Proof.
  revert s. induction events as [|e events IH]; intros s Hm Ht Hev Hlt; [done|].
  cbn in Hev. apply andb_prop in Hev as [He Hev].
  change (run s (e :: events)) with (run (step s e) events).
  change (elapsed (e :: events))
    with (match e with Elapse dt => Z.of_N dt + elapsed events
                  | _ => elapsed events end) in Hlt.
  assert (0 ≤ elapsed events) as Hpos.
  { clear. induction events as [|e events IH]; [done|].
    change (elapsed (e :: events))
      with (match e with Elapse dt => Z.of_N dt + elapsed events
                    | _ => elapsed events end).
    destruct e; lia. }
  destruct e as [m'|m'|p|dt]; [done| | |]; cbn [step].
  - destruct (setErrorMessage_fields m' s) as (_ & Hs & Hst & _ & Hc).
    apply IH; [by rewrite Hs | by rewrite Hst | done | by rewrite Hc].
  - by apply IH.
  - destruct (elapse_success dt s) as [Hs Hst].
    assert (due (successTimer s) (clock s + Z.of_N dt) = false) as Hdue.
    { rewrite Ht. cbn. apply Z.leb_gt. lia. }
    rewrite Hdue in Hs, Hst.
    apply IH; [by rewrite Hs | by rewrite Hst | done |].
    rewrite clock_elapse. lia.
Qed.

Lemma error_stays deadline m s events :
  errorMessage s = m → errorTimer s = Some deadline →
  forallb (λ e, negb (sets_error e)) events = true →
  clock s + elapsed events < deadline →
  errorMessage (run s events) = m.
Proof.
  revert s. induction events as [|e events IH]; intros s Hm Ht Hev Hlt; [done|].
  cbn in Hev. apply andb_prop in Hev as [He Hev].
  change (run s (e :: events)) with (run (step s e) events).
  change (elapsed (e :: events))
    with (match e with Elapse dt => Z.of_N dt + elapsed events
                  | _ => elapsed events end) in Hlt.
  assert (0 ≤ elapsed events) as Hpos.
  { clear. induction events as [|e events IH]; [done|].
    change (elapsed (e :: events))
      with (match e with Elapse dt => Z.of_N dt + elapsed events
                    | _ => elapsed events end).
    destruct e; lia. }
  destruct e as [m'|m'|p|dt]; [|done| |]; cbn [step].
  - destruct (setSuccessMessage_fields m' s) as (_ & Hs & Hst & _ & Hc).
    apply IH; [by rewrite Hs | by rewrite Hst | done | by rewrite Hc].
  - by apply IH.
  - destruct (elapse_error dt s) as [Hs Hst].
    assert (due (errorTimer s) (clock s + Z.of_N dt) = false) as Hdue.
    { rewrite Ht. cbn. apply Z.leb_gt. lia. }
    rewrite Hdue in Hs, Hst.
    apply IH; [by rewrite Hs | by rewrite Hst | done |].
    rewrite clock_elapse. lia.
Qed.

(** A message that replaces another text (or none) is not taken away
    early: as long as less than 3 s have passed for a success, 5 s for an
    error, and no message of its kind is set, it is still on display,
    whatever happens to the other banner and to the processing mark. *)
Theorem banner_stays_for_its_delay (s : State) (m : jsstring) (events : list Event)
    (Hm : m ≠ []) :
  (m ≠ successMessage s →
   forallb (λ e, negb (sets_success e)) events = true →
   elapsed events < 3000 →
   successMessage (run (setSuccessMessage m s) events) = m) ∧
  (m ≠ errorMessage s →
   forallb (λ e, negb (sets_error e)) events = true →
   elapsed events < 5000 →
   errorMessage (run (setErrorMessage m s) events) = m).
Proof.
  split; intros Hne Hev Hlt.
  - destruct (setSuccessMessage_restarts m s 0 Hm Hne) as [Ht _].
    destruct (setSuccessMessage_fields m s) as (Hs & _ & _ & _ & Hc).
    apply (success_stays (clock s + 3000)); [done | done | done |].
    rewrite Hc. lia.
  - destruct (setErrorMessage_restarts m s 0 Hm Hne) as [Ht _].
    destruct (setErrorMessage_fields m s) as (Hs & _ & _ & _ & Hc).
    apply (error_stays (clock s + 5000)); [done | done | done |].
    rewrite Hc. lia.
Qed.

Lemma banner_stays_for_its_delay_witness :
  successMessage
    (run (setSuccessMessage sample_message (initial 0))
       [Elapse 1000; SetError (str "Failed"); Elapse 1999]) = sample_message ∧
  errorMessage
    (run (setErrorMessage sample_message (initial 0))
       [Elapse 1000; SetSuccess (str "Done"); Elapse 3999]) = sample_message.
Proof.
  destruct (banner_stays_for_its_delay (initial 0) sample_message
              [Elapse 1000; SetError (str "Failed"); Elapse 1999])
    as [Hs _]; [discriminate|].
  destruct (banner_stays_for_its_delay (initial 0) sample_message
              [Elapse 1000; SetSuccess (str "Done"); Elapse 3999])
    as [_ He]; [discriminate|].
  split.
  - apply Hs; [discriminate | reflexivity | cbn; lia].
  - apply He; [discriminate | reflexivity | cbn; lia].
Defined.

(** *** One call of a handler *)

Lemma successText_nonempty noun status : successText noun status ≠ [].
Proof.
  unfold successText. intros H. apply (f_equal length) in H.
  rewrite !length_app in H. simpl in H. lia.
Qed.

(** *** Calls that overlap *)

Lemma run_app s (a b : list Event) : run s (a ++ b) = run (run s a) b.
Proof. apply foldl_app. Qed.

Lemma run_startEvents target s : run s (startEvents target) = actionStart target s.
Proof. reflexivity. Qed.

(** A call that nothing overlaps is the call of the handler taken alone. *)
Lemma handleApproval_alone noun fallback target status o s :
  handleApproval noun fallback target status o s
    = handleApprovalAmid noun fallback target status
        (alone (review_ms o) (review_throws o))
        (alone (refresh_ms o) (refresh_throws o)) s.
Proof. reflexivity. Qed.

Lemma actionStart_fields target s :
  successMessage (actionStart target s) = [] ∧
  errorMessage (actionStart target s) = [] ∧
  processing (actionStart target s) = Some target.
Proof.
  unfold actionStart.
  destruct (setSuccessMessage_fields []
              (setErrorMessage [] (setProcessing (Some target) s)))
    as (Hs & He & _ & Hp & _).
  destruct (setErrorMessage_fields [] (setProcessing (Some target) s))
    as (He' & _ & _ & Hp' & _).
  split_and!; [done | by rewrite He | by rewrite Hp, Hp'].
Qed.

Lemma success_keeps_empty s events :
  successMessage s = [] →
  forallb (λ e, negb (sets_success e)) events = true →
  successMessage (run s events) = [].
Proof.
  revert s. induction events as [|e events IH]; intros s Hs Hev; [done|].
  cbn in Hev. apply andb_prop in Hev as [He Hev].
  change (run s (e :: events)) with (run (step s e) events).
  apply IH; [|done].
  destruct e as [m|m|p|dt]; [done| | |]; cbn [step].
  - destruct (setErrorMessage_fields m s) as (_ & Hkept & _). by rewrite Hkept.
  - done.
  - by apply elapse_keeps_empty.
Qed.

Lemma error_keeps_empty s events :
  errorMessage s = [] →
  forallb (λ e, negb (sets_error e)) events = true →
  errorMessage (run s events) = [].
Proof.
  revert s. induction events as [|e events IH]; intros s Hs Hev; [done|].
  cbn in Hev. apply andb_prop in Hev as [He Hev].
  change (run s (e :: events)) with (run (step s e) events).
  apply IH; [|done].
  destruct e as [m|m|p|dt]; [|done| |]; cbn [step].
  - destruct (setSuccessMessage_fields m s) as (_ & Hkept & _). by rewrite Hkept.
  - done.
  - by apply elapse_keeps_empty.
Qed.

Lemma processing_kept s events :
  keeps_mark events → processing (run s events) = processing s.
Proof.
  unfold keeps_mark.
  revert s. induction events as [|e events IH]; intros s Hev; [done|].
  cbn in Hev. apply andb_prop in Hev as [He Hev].
  change (run s (e :: events)) with (run (step s e) events).
  rewrite IH by done.
  destruct e as [m|m|p|dt]; [| |done|]; cbn [step].
  - by destruct (setSuccessMessage_fields m s) as (_ & _ & _ & -> & _).
  - by destruct (setErrorMessage_fields m s) as (_ & _ & _ & -> & _).
  - apply elapse_processing.
Qed.

Lemma sets_no_message_split events :
  sets_no_message events →
  forallb (λ e, negb (sets_success e)) events = true ∧
  forallb (λ e, negb (sets_error e)) events = true.
Proof.
  unfold sets_no_message.
  induction events as [|e events IH]; intros Hev; [done|].
  cbn in Hev. apply andb_prop in Hev as [He Hev].
  apply andb_prop in He as [Hs He].
  destruct (IH Hev) as [IHs IHe].
  split; cbn; apply andb_true_intro; by split.
Qed.

Lemma handleApprovalAmid_thrown noun fallback target status review refresh s msg :
  throws review = Some msg →
  let s' := handleApprovalAmid noun fallback target status review refresh s in
  errorMessage s' = GoalReport.or_else msg fallback ∧
  successMessage s' = successMessage (run (actionStart target s) (meanwhile review)).
Proof.
  intros Hthrow. unfold handleApprovalAmid. cbv zeta. rewrite Hthrow.
  destruct (setErrorMessage_fields (GoalReport.or_else msg fallback)
              (run (actionStart target s) (meanwhile review))) as (He & Hs & _).
  by split.
Qed.

Lemma handleApprovalAmid_reviewed noun fallback target status review refresh s :
  throws review = None →
  let s3 := run (setSuccessMessage (successText noun status)
                   (run (actionStart target s) (meanwhile review)))
              (meanwhile refresh) in
  let s' := handleApprovalAmid noun fallback target status review refresh s in
  successMessage s' = successMessage s3 ∧
  errorMessage s' =
    match throws refresh with
    | Some msg => GoalReport.or_else msg fallback
    | None => errorMessage s3
    end.
Proof.
  intros Hok. unfold handleApprovalAmid. cbv zeta. rewrite Hok.
  destruct (throws refresh) as [msg|]; [|done].
  destruct (setErrorMessage_fields (GoalReport.or_else msg fallback)
              (run (setSuccessMessage (successText noun status)
                      (run (actionStart target s) (meanwhile review)))
                 (meanwhile refresh))) as (He & Hs & _).
  by split.
Qed.

(** Either handler, whatever else happens to the component while it is
    awaited. It returns with the processing mark cleared, so that every
    button is enabled then, also those of an item whose own call is still
    awaited. When the review throws, the error banner shows the error's
    message, or the handler's own text when the error has none, never an
    empty text, and no success banner is shown unless something else set
    one meanwhile. While the call is awaited exactly the buttons of its
    item are disabled, as long as no other call starts or returns; a call
    that starts for another item takes the mark over, and the buttons of
    the first item are enabled again although its call is still awaited. *)
Theorem handler_releases_and_reports (target : jsstring) (status : ReviewStatus)
    (review refresh : Await) (s : State) :
  Forall (λ handle : jsstring → ReviewStatus → Await → Await → State → State,
            let s' := handle target status review refresh s in
            processing s' = None ∧
            (∀ item, disabled item s' = false) ∧
            ∀ msg, throws review = Some msg →
                   errorMessage s' ≠ [] ∧
                   (∀ text, msg = Some text → text ≠ [] →
                            errorMessage s' = text) ∧
                   (forallb (λ e, negb (sets_success e)) (meanwhile review)
                      = true →
                    successMessage s' = []))
         [handleGoalApprovalAmid; handleReflectionApprovalAmid] ∧
  (∀ events, keeps_mark events →
     disabled target (run (actionStart target s) events) = true ∧
     ∀ other, other ≠ target →
              disabled other (run (actionStart target s) events) = false) ∧
  (∀ events other, other ≠ target →
     let overlapped := actionStart other (run (actionStart target s) events) in
     disabled target overlapped = false ∧ disabled other overlapped = true).
Proof.
  assert (∀ noun fallback, fallback ≠ [] →
    let s' := handleApprovalAmid noun fallback target status review refresh s in
    processing s' = None ∧
    (∀ item, disabled item s' = false) ∧
    ∀ msg, throws review = Some msg →
           errorMessage s' ≠ [] ∧
           (∀ text, msg = Some text → text ≠ [] → errorMessage s' = text) ∧
           (forallb (λ e, negb (sets_success e)) (meanwhile review) = true →
            successMessage s' = [])) as Hgen.
  { intros noun fallback Hf s'.
    assert (processing s' = None) as Hp by reflexivity.
    split; [done|]. split.
    - intros item. unfold disabled. rewrite Hp.
      by apply bool_decide_eq_false_2.
    - intros msg Hthrow.
      destruct (handleApprovalAmid_thrown noun fallback target status review
                  refresh s msg Hthrow) as [He Hs]. fold s' in He, Hs.
      rewrite He, Hs. split_and!.
      + by apply StudentProps.or_else_nonempty.
      + intros text -> Hne. unfold GoalReport.or_else.
        by rewrite bool_decide_eq_false_2.
      + intros Hev. apply success_keeps_empty; [|done].
        apply actionStart_fields. }
  split; [|split].
  - constructor; [|constructor; [|constructor]]; by apply Hgen.
  - intros events Hev.
    assert (processing (run (actionStart target s) events) = Some target) as Hp.
    { rewrite processing_kept by done. apply actionStart_fields. }
    unfold disabled. rewrite Hp. split.
    + by apply bool_decide_eq_true_2.
    + intros other Hne. apply bool_decide_eq_false_2. by intros [= ->].
  - intros events other Hne overlapped.
    destruct (actionStart_fields other (run (actionStart target s) events))
      as (_ & _ & Hp). fold overlapped in Hp.
    unfold disabled. rewrite Hp. split.
    + apply bool_decide_eq_false_2. by intros [= ->].
    + by apply bool_decide_eq_true_2.
Qed.

(** After a review that went through. When nothing else sets a message
    while the call is awaited, the success banner is on display on return
    exactly when less than 3 s passed during the refresh, and the error
    banner exactly when the refresh threw: a refresh that throws within 3 s
    leaves both banners on display at once. And when another call starts
    during the refresh, and no success message is set after that, the call
    returns with no success banner, however short the refresh. *)
Theorem banners_after_review (target : jsstring) (status : ReviewStatus)
    (review refresh : Await) (s : State) (Hreviewed : throws review = None) :
  Forall (λ handle : jsstring → ReviewStatus → Await → Await → State → State,
            let s' := handle target status review refresh s in
            (sets_no_message (meanwhile review) →
             sets_no_message (meanwhile refresh) →
             (successMessage s' ≠ [] ↔ elapsed (meanwhile refresh) < 3000) ∧
             (errorMessage s' ≠ [] ↔ is_Some (throws refresh)) ∧
             (is_Some (throws refresh) → elapsed (meanwhile refresh) < 3000 →
              successMessage s' ≠ [] ∧ errorMessage s' ≠ [])) ∧
            (∀ before other after,
               meanwhile refresh = before ++ startEvents other ++ after →
               forallb (λ e, negb (sets_success e)) after = true →
               successMessage s' = []))
         [handleGoalApprovalAmid; handleReflectionApprovalAmid].
Proof.
  assert (∀ noun fallback, fallback ≠ [] →
    let s' := handleApprovalAmid noun fallback target status review refresh s in
    (sets_no_message (meanwhile review) →
     sets_no_message (meanwhile refresh) →
     (successMessage s' ≠ [] ↔ elapsed (meanwhile refresh) < 3000) ∧
     (errorMessage s' ≠ [] ↔ is_Some (throws refresh)) ∧
     (is_Some (throws refresh) → elapsed (meanwhile refresh) < 3000 →
      successMessage s' ≠ [] ∧ errorMessage s' ≠ [])) ∧
    (∀ before other after,
       meanwhile refresh = before ++ startEvents other ++ after →
       forallb (λ e, negb (sets_success e)) after = true →
       successMessage s' = [])) as Hgen.
  { intros noun fallback Hf s'.
    destruct (handleApprovalAmid_reviewed noun fallback target status review
                refresh s Hreviewed) as [Hs He]. fold s' in Hs, He.
    pose proof (successText_nonempty noun status) as Hne.
    set (s1 := run (actionStart target s) (meanwhile review)) in *.
    set (s2 := setSuccessMessage (successText noun status) s1) in *.
    split.
    - intros Hq1 Hq2.
      apply sets_no_message_split in Hq1 as [Hq1s Hq1e].
      apply sets_no_message_split in Hq2 as [Hq2s Hq2e].
      destruct (actionStart_fields target s) as (Hs0 & He0 & _).
      assert (successMessage s1 = []) as Hs1
        by (by apply success_keeps_empty).
      assert (errorMessage s1 = []) as He1
        by (by apply error_keeps_empty).
      destruct (setSuccessMessage_restarts (successText noun status) s1 0 Hne)
        as [Ht _]; [by rewrite Hs1|]. fold s2 in Ht.
      destruct (setSuccessMessage_fields (successText noun status) s1)
        as (Hs2 & He2 & _ & _ & Hc2). fold s2 in Hs2, He2, Hc2.
      assert (errorMessage (run s2 (meanwhile refresh)) = []) as He3.
      { apply error_keeps_empty; [|done]. by rewrite He2. }
      assert (successMessage s' ≠ [] ↔ elapsed (meanwhile refresh) < 3000)
        as H1.
      { rewrite Hs.
        destruct (Z.lt_ge_cases (elapsed (meanwhile refresh)) 3000) as [Hlt|Hge].
        - rewrite (success_stays (clock s1 + 3000) (successText noun status));
            [done | done | done | done | rewrite Hc2; lia].
        - assert (successClearsBy (clock s1 + 3000)
                    (run s2 (meanwhile refresh))) as [Hc|(d & _ & Hd)].
          { apply successClearsBy_run; [done|]. right.
            exists (clock s1 + 3000). split; [done|]. rewrite Hc2. lia. }
          + rewrite Hc. split; [done | lia].
          + rewrite clock_run, Hc2 in Hd. lia. }
      assert (errorMessage s' ≠ [] ↔ is_Some (throws refresh)) as H2.
      { rewrite He. destruct (throws refresh) as [msg|].
        - split; [by eexists|]. intros _.
          by apply StudentProps.or_else_nonempty.
        - rewrite He3. split; [done | by intros [? ?]]. }
      split; [done|]. split; [done|].
      intros Hthrown Hlt. split; [by apply H1 | by apply H2].
    - intros before other after Hmid Hafter.
      rewrite Hs, Hmid, !run_app, run_startEvents.
      apply success_keeps_empty; [|done]. apply actionStart_fields. }
  constructor; [|constructor; [|constructor]]; by apply Hgen.
Qed.

Lemma banners_after_review_witness :
  (successMessage
     (handleGoalApprovalAmid (str "g1") Approved quiet_review failing_refresh
        (initial 0)) ≠ [] ∧
   errorMessage
     (handleGoalApprovalAmid (str "g1") Approved quiet_review failing_refresh
        (initial 0)) ≠ []) ∧
  successMessage
    (handleGoalApprovalAmid (str "g1") Approved quiet_review overlapped_refresh
       (initial 0)) = [].
Proof.
  split.
  - pose proof (banners_after_review (str "g1") Approved quiet_review
                  failing_refresh (initial 0) eq_refl) as Hall.
    apply Forall_cons in Hall as [[Hquiet _] _].
    destruct (Hquiet eq_refl eq_refl) as (_ & _ & Hboth).
    apply Hboth; [by eexists | cbn; lia].
  - pose proof (banners_after_review (str "g1") Approved quiet_review
                  overlapped_refresh (initial 0) eq_refl) as Hall.
    apply Forall_cons in Hall as [[_ Hover] _].
    apply (Hover [Elapse 200] (str "g2") [Elapse 400]); reflexivity.
Defined.

(** Two calls that overlap. While the review of [g1] is awaited a call for
    [g2] starts: the buttons of [g1] are enabled again. And the call for
    [g1] that returns while the call for [g2] is awaited enables the
    buttons of [g2]. *)
Example overlapping_calls_share_the_mark :
  let first := actionStart (str "g1") (initial 0) in
  let second := run first ([ Elapse 100 ] ++ startEvents (str "g2")) in
  disabled (str "g1") first = true ∧
  disabled (str "g1") second = false ∧
  disabled (str "g2") second = true ∧
  disabled (str "g2")
    (handleGoalApprovalAmid (str "g1") Approved
       (mkAwait ([ Elapse 100 ] ++ startEvents (str "g2") ++ [ Elapse 300 ]) None)
       (alone 600 None) (initial 0)) = false.
Proof. vm_compute. done. Qed.

Example refresh_failure_shows_both :
  let s := handleGoalApproval (str "g1") Approved refresh_fails (initial 0) in
  successMessage s = str "Goal approved successfully! " ++ [9989%N] ∧
  errorMessage s = str "Failed to approve goal. Please try again." ∧
  processing s = None.
Proof. vm_compute. done. Qed.

End BannerProps.

(** ** The request record and the review payloads, continued *)

Module BuilderProps.
Import MentorshipService MentorshipSpec MentorshipProps.

Lemma lookup_if_insert (b : bool) (d : doc) k k' v :
  (if b then <[k := v]> d else d) !! k' = Some JUndefined →
  (b = true ∧ k = k' ∧ v = JUndefined) ∨ d !! k' = Some JUndefined.
Proof.
  destruct b; [|by right].
  intros [[-> ->]|[_ H]]%lookup_insert_Some; [by left | by right].
Qed.

(** The record of a new request always carries its seven required fields,
    with status pending. It holds an [undefined] value, which makes the
    store refuse it, exactly when the student document has no name or no
    email or the requested mentor's document has no name: the optional
    fields never bring one in, the snapshot fields can. *)
Theorem request_record_is_complete
    (studentId requestedMentorId : jsstring) (currentMentorId reason : jsval)
    (student requestedMentor : doc) (currentMentor : option doc) (now : Z) :
  let r := requestData studentId requestedMentorId currentMentorId reason
             student requestedMentor currentMentor now in
  r !! "student_id" = Some (JStr studentId) ∧
  r !! "requested_mentor_id" = Some (JStr requestedMentorId) ∧
  r !! "status" = Some (JStr (str "pending")) ∧
  r !! "created_at" = Some (JDate now) ∧
  r !! "student_name" = Some (prop student "name") ∧
  r !! "student_email" = Some (prop student "email") ∧
  r !! "requested_mentor_name" = Some (prop requestedMentor "name") ∧
  ((∃ k, r !! k = Some JUndefined) ↔
   prop student "name" = JUndefined ∨ prop student "email" = JUndefined ∨
   prop requestedMentor "name" = JUndefined).
Proof.
  intros r.
  assert (r !! "student_id" = Some (JStr studentId) ∧
          r !! "requested_mentor_id" = Some (JStr requestedMentorId) ∧
          r !! "status" = Some (JStr (str "pending")) ∧
          r !! "created_at" = Some (JDate now) ∧
          r !! "student_name" = Some (prop student "name") ∧
          r !! "student_email" = Some (prop student "email") ∧
          r !! "requested_mentor_name" = Some (prop requestedMentor "name"))
    as (H1 & H2 & H3 & H4 & H5 & H6 & H7).
  { unfold r, requestData. cbv zeta.
    destruct (truthy currentMentorId), (truthy (opt_prop currentMentor "name")),
      (truthy reason); split_and!; by simplify_map_eq. }
  split_and!; try done.
  split.
  - intros (k & Hk). unfold r, requestData in Hk. cbv zeta in Hk.
    apply lookup_if_insert in Hk as [(Ht & _ & ->)|Hk]; [done|].
    apply lookup_if_insert in Hk as [(Ht & _ & Hu)|Hk];
      [by rewrite Hu in Ht|].
    apply lookup_if_insert in Hk as [(Ht & _ & ->)|Hk]; [done|].
    repeat (apply lookup_insert_Some in Hk as [[_ Hk]|[_ Hk]];
            [try done; auto|]).
    done.
  - intros [H|[H|H]]; [exists "student_name" | exists "student_email"
                       | exists "requested_mentor_name"]; by rewrite <- H.
Qed.

Lemma insert3_undefined (d : doc) k :
  d !! k = Some JUndefined →
  ∀ k1 v1 k2 v2 k3 v3 k4 v4 (b : bool),
    d = (if b then <[k4 := v4]> (<[k1 := v1]> (<[k2 := v2]> (<[k3 := v3]> ∅)))
         else <[k1 := v1]> (<[k2 := v2]> (<[k3 := v3]> ∅))) →
    (b = true ∧ v4 = JUndefined) ∨ v1 = JUndefined ∨ v2 = JUndefined ∨
    v3 = JUndefined.
Proof.
  intros Hk k1 v1 k2 v2 k3 v3 k4 v4 b ->.
  apply lookup_if_insert in Hk as [(-> & _ & ->)|Hk]; [by left|].
  right.
  repeat (apply lookup_insert_Some in Hk as [[_ Hk]|[_ Hk]]; [by auto|]).
  done.
Qed.

(** What a review writes: the request update of an approval never holds
    an [undefined] value, with or without notes, and sets the status to
    approved; the student update of an approval holds one exactly when the
    request has no requested mentor; the student update of a rejection never
    does, and touches [pending_mentor_id] alone. *)
Theorem review_payloads_defined
    (adminId : jsstring) (adminNotes : jsval) (now : Z) (request : doc) :
  (∀ k, approveUpdateData adminId adminNotes now !! k ≠ Some JUndefined) ∧
  approveUpdateData adminId adminNotes now !! "status"
    = Some (JStr (str "approved")) ∧
  approveUpdateData adminId adminNotes now !! "reviewed_by"
    = Some (JStr adminId) ∧
  ((∃ k, approveStudentUpdate request !! k = Some JUndefined) ↔
   prop request "requested_mentor_id" = JUndefined) ∧
  (∀ k, rejectStudentUpdate request !! k ≠ Some JUndefined) ∧
  dom (rejectStudentUpdate request) = ({[ "pending_mentor_id" ]} : gset string).
Proof.
  split_and!.
  - intros k Hk.
    destruct (insert3_undefined _ k Hk "status" (JStr (str "approved"))
                "reviewed_at" (JDate now) "reviewed_by" (JStr adminId)
                "admin_notes" adminNotes (truthy adminNotes) eq_refl)
      as [[Ht ->]|[?|[?|?]]]; done.
  - unfold approveUpdateData. cbv zeta.
    destruct (truthy adminNotes); by simplify_map_eq.
  - unfold approveUpdateData. cbv zeta.
    destruct (truthy adminNotes); by simplify_map_eq.
  - unfold approveStudentUpdate. split.
    + intros (k & Hk).
      repeat (apply lookup_insert_Some in Hk as [[_ Hk]|[_ Hk]]; [done|]).
      done.
    + intros H. exists "mentor_id". rewrite <- H. by simplify_map_eq.
  - intros k Hk. unfold rejectStudentUpdate in Hk.
    by apply lookup_insert_Some in Hk as [[_ Hk]|[_ Hk]].
  - unfold rejectStudentUpdate. by rewrite dom_insert_L, dom_empty_L, union_empty_r_L.
Qed.

End BuilderProps.
